(** * Business Idea Refinement Agent

    A shallow embedding of [business_idea_agent.py] and the proofs that
    settle the testable properties of its specification.

    The file has two parts.  Part I holds the definitions: the Python
    runtime primitives the agent relies on ([str] methods, [int],
    [struct.pack], exceptions), then the agent's methods in the order of
    the source.  Part II holds the lemmas and theorems. *)

From Stdlib Require Import ZArith Lia List Ascii String.
From Stdlib.Strings Require Import Byte.
From stdpp Require Import base option list strings gmap.

Open Scope Z_scope.

(** * Part I: definitions *)

(** ** Python runtime primitives *)

Module Py.

(** The exceptions that can occur in the agent.  [StructError] is
    [struct.error]; [OSError] stands for the file-system errors
    ([FileNotFoundError], [FileExistsError], ...); [Exception] is a plain
    [Exception(msg)], which is also what a failing provider call is
    modelled as.  Every constructor is a subclass of Python's [Exception],
    so an [except Exception] clause handles all of them. *)
Inductive exn : Type :=
  | ValueError
  | IndexError
  | StructError
  | OSError
  | Exception (msg : string).

(** The outcome of evaluating an expression: a value, or a raised
    exception. *)
Inductive result (A : Type) : Type :=
  | Ok (a : A)
  | Raise (e : exn).
Arguments Ok {A} a.
Arguments Raise {A} e.

Definition bind {A B} (m : result A) (k : A -> result B) : result B :=
  match m with
  | Ok a => k a
  | Raise e => Raise e
  end.

Declare Scope py_scope.
Delimit Scope py_scope with py.
Notation "x <- m ;; k" := (bind m (fun x => k))
  (at level 60, m at next level, right associativity) : py_scope.

(** [try: body except (E1, E2): handler]: the handler runs when the body
    raises an exception that [handled] accepts, other exceptions
    propagate. *)
Definition try_except {A} (body : result A) (handled : exn -> bool)
    (handler : result A) : result A :=
  match body with
  | Ok a => Ok a
  | Raise e => if handled e then handler else Raise e
  end.

Definition is_ValueError_or_IndexError (e : exn) : bool :=
  match e with
  | ValueError | IndexError => true
  | _ => false
  end.

(** *** [str]

    A [str] is modelled by a [string] whose characters are the code points
    U+0000 to U+00FF; the character classes below are Python's on that
    range. *)

Definition code (c : ascii) : N := N_of_ascii c.

(** [str.isspace] on one character, the set [str.strip()] removes. *)
Definition isspace (c : ascii) : bool :=
  let n := code c in
  ((9 <=? n) && (n <=? 13) || (28 <=? n) && (n <=? 32)
   || (n =? 133) || (n =? 160))%N.

(** The white space [int()] skips around a numeral: the same set without
    the separators U+001C to U+001F. *)
Definition isspace_int (c : ascii) : bool :=
  let n := code c in
  ((9 <=? n) && (n <=? 13) || (n =? 32) || (n =? 133) || (n =? 160))%N.

(** [str.lower] on one character: A-Z, and U+00C0 to U+00DE but U+00D7. *)
Definition lower_char (c : ascii) : ascii :=
  let n := code c in
  if ((65 <=? n) && (n <=? 90)
      || (192 <=? n) && (n <=? 222) && negb (n =? 215))%N
  then ascii_of_N (n + 32) else c.

Fixpoint lower (s : string) : string :=
  match s with
  | EmptyString => EmptyString
  | String c s' => String (lower_char c) (lower s')
  end.

Fixpoint lstrip_with (sp : ascii -> bool) (s : string) : string :=
  match s with
  | EmptyString => EmptyString
  | String c s' => if sp c then lstrip_with sp s' else s
  end.

Fixpoint rstrip_with (sp : ascii -> bool) (s : string) : string :=
  match s with
  | EmptyString => EmptyString
  | String c s' =>
      match rstrip_with sp s' with
      | EmptyString => if sp c then EmptyString else String c EmptyString
      | r => String c r
      end
  end.

Definition strip_with (sp : ascii -> bool) (s : string) : string :=
  rstrip_with sp (lstrip_with sp s).

(** [s.strip()] *)
Definition strip (s : string) : string := strip_with isspace s.

(** [s.startswith(p)] *)
Definition startswith (s p : string) : bool := String.prefix p s.

(** [s.split(sep)] and [s.split(sep, maxsplit)] for a separator of one
    character, which is all the agent uses (";", "=" and "L").
    [maxsplit = None] is the call without the second argument. *)
Fixpoint split (sep : ascii) (maxsplit : option nat) (s : string)
    : list string :=
  match s with
  | EmptyString => [EmptyString]
  | String c s' =>
      if Ascii.eqb c sep && negb (bool_decide (maxsplit = Some O))
      then EmptyString :: split sep (Nat.pred <$> maxsplit) s'
      else match split sep maxsplit s' with
           | h :: t => String c h :: t
           | [] => [String c EmptyString]
           end
  end.

(** [l[i]] for [i >= 0]. *)
Definition index {A} (l : list A) (i : nat) : result A :=
  match l !! i with
  | Some a => Ok a
  | None => Raise IndexError
  end.

(** *** [int(s)] in base 10

    White space around the numeral is skipped, then comes an optional sign
    and then decimal digits, where single underscores may stand between two
    digits.  Anything else raises [ValueError], and so does a numeral with
    more digits than the interpreter allows. *)

(** [sys.get_int_max_str_digits()]: the interpreter's limit on the number
    of digits of a numeral, at its default; the agent never sets it. *)
Definition int_max_str_digits : nat := 4300.

Definition digit_of (c : ascii) : option Z :=
  let n := code c in
  if ((48 <=? n) && (n <=? 57))%N then Some (Z.of_N n - 48) else None.

(** [after_digit] tells whether the previous character was a digit: an
    underscore and the end of the numeral are allowed only then. *)
Fixpoint digits_value (acc : Z) (after_digit : bool) (s : string)
    : option Z :=
  match s with
  | EmptyString => if after_digit then Some acc else None
  | String c s' =>
      match digit_of c with
      | Some d => digits_value (10 * acc + d) true s'
      | None =>
          if Ascii.eqb c "_" && after_digit
          then digits_value acc false s'
          else None
      end
  end.

(** The digits of a numeral are counted against the limit: leading zeros
    count, the sign and the underscores do not. *)
Fixpoint count_digits (s : string) : nat :=
  match s with
  | EmptyString => O
  | String c s' =>
      match digit_of c with
      | Some _ => S (count_digits s')
      | None => count_digits s'
      end
  end.

Definition int (s : string) : result Z :=
  let t := strip_with isspace_int s in
  let signed :=
    match t with
    | String "-" r => Z.opp <$> digits_value 0 false r
    | String "+" r => digits_value 0 false r
    | _ => digits_value 0 false t
    end in
  match signed with
  | Some z =>
      if (count_digits t <=? int_max_str_digits)%nat then Ok z
      else Raise ValueError
  | None => Raise ValueError
  end.

(** *** [bytes] and [struct.pack] *)

Definition bytes := list byte.

Definition byte_of_Z (z : Z) : byte :=
  default x00 (Byte.of_N (Z.to_N (z mod 256))).

Definition Z_of_byte (b : byte) : Z := Z.of_N (Byte.to_N b).

(** The [n] least significant bytes of [z], least significant first. *)
Fixpoint pack_le (n : nat) (z : Z) : bytes :=
  match n with
  | O => []
  | S n' => byte_of_Z z :: pack_le n' (z / 256)
  end.

(** The unsigned number a little-endian byte string stands for. *)
Fixpoint unpack_le (b : bytes) : Z :=
  match b with
  | [] => 0
  | x :: r => Z_of_byte x + 256 * unpack_le r
  end.

(** The format characters of the header: ["4s"], ["I"] (unsigned, 4
    bytes) and ["H"] (unsigned, 2 bytes), in the byte order and standard
    sizes that the prefix ["<"] selects (little-endian, no padding). *)
Inductive fmt : Type := F4s | FI | FH.

Inductive arg : Type :=
  | ABytes (b : bytes)
  | AInt (z : Z).

Definition pack_uint (width : nat) (z : Z) : result bytes :=
  if (0 <=? z) && (z <? 256 ^ Z.of_nat width)
  then Ok (pack_le width z)
  else Raise StructError.

(** One field.  A ["4s"] field takes the first four bytes of its argument
    and pads with null bytes; an integer field raises [struct.error] when
    the value is out of range, as does an argument of the wrong type. *)
Definition pack_field (f : fmt) (a : arg) : result bytes :=
  match f, a with
  | F4s, ABytes b => Ok (take 4 (b ++ replicate 4 x00))
  | FI, AInt z => pack_uint 4 z
  | FH, AInt z => pack_uint 2 z
  | _, _ => Raise StructError
  end.

(** [struct.pack("<...", args...)]: the fields in order; too few or too
    many arguments raise [struct.error]. *)
Fixpoint struct_pack (fs : list fmt) (args : list arg) : result bytes :=
  match fs, args with
  | [], [] => Ok []
  | f :: fs', a :: args' =>
      (b <- pack_field f a ;;
       r <- struct_pack fs' args' ;;
       Ok (b ++ r))%py
  | _, _ => Raise StructError
  end.

End Py.

Import Py.
Open Scope py_scope.

(** ** The agent *)

(** The fields of [self]; the provider client is [Services] below.  An
    environment variable that is not set reads as [None]. *)
Record BusinessIdeaAgent : Type := {
  gemini_api_key : option string;
  resend_api_key : option string;
  user_email : string;
  output_dir : list string;
  pending_dir : list string;
  evaluated_dir : list string;
}.

(** The dictionary [{"bits_per_sample": ..., "rate": ...}]. *)
Record AudioParams : Type := {
  bits_per_sample : Z;
  rate : Z;
}.

(** The body of the [for param in parts] loop of
    [_parse_audio_mime_type], from the current values of the two
    variables to the next ones. *)
Definition parse_param (acc : AudioParams) (param : string)
    : result AudioParams :=
  let param := strip param in
  if startswith (lower param) "rate=" then
    try_except
      (rate_str <- index (split "=" (Some 1%nat) param) 1 ;;
       r <- int rate_str ;;
       Ok {| bits_per_sample := bits_per_sample acc; rate := r |})
      is_ValueError_or_IndexError
      (Ok acc)
  else if startswith param "audio/L" then
    try_except
      (bits_str <- index (split "L" (Some 1%nat) param) 1 ;;
       b <- int bits_str ;;
       Ok {| bits_per_sample := b; rate := rate acc |})
      is_ValueError_or_IndexError
      (Ok acc)
  else Ok acc.

Fixpoint parse_params (acc : AudioParams) (parts : list string)
    : result AudioParams :=
  match parts with
  | [] => Ok acc
  | param :: rest =>
      acc' <- parse_param acc param ;;
      parse_params acc' rest
  end.

Definition _parse_audio_mime_type (self : BusinessIdeaAgent)
    (mime_type : string) : result AudioParams :=
  let parts := split ";" None mime_type in
  parse_params {| bits_per_sample := 16; rate := 24000 |} parts.

(** The literals [b"RIFF"], [b"WAVE"], [b"fmt "] and [b"data"]. *)
Definition b_RIFF : bytes := [x52; x49; x46; x46].
Definition b_WAVE : bytes := [x57; x41; x56; x45].
Definition b_fmt : bytes := [x66; x6d; x74; x20].
Definition b_data : bytes := [x64; x61; x74; x61].

(** The format string ["<4sI4s4sIHHIIHH4sI"]. *)
Definition wav_header_format : list fmt :=
  [F4s; FI; F4s; F4s; FI; FH; FH; FI; FI; FH; FH; F4s; FI].

Definition _convert_to_wav (self : BusinessIdeaAgent)
    (audio_data : bytes) (mime_type : string) : result bytes :=
  parameters <- _parse_audio_mime_type self mime_type ;;
  let bits_per_sample := bits_per_sample parameters in
  let sample_rate := rate parameters in
  let num_channels := 1 in
  let data_size := Z.of_nat (length audio_data) in
  let bytes_per_sample := bits_per_sample / 8 in
  let block_align := num_channels * bytes_per_sample in
  let byte_rate := sample_rate * block_align in
  let chunk_size := 36 + data_size in
  header <- struct_pack wav_header_format
    [ABytes b_RIFF; AInt chunk_size; ABytes b_WAVE; ABytes b_fmt;
     AInt 16; AInt 1; AInt num_channels; AInt sample_rate;
     AInt byte_rate; AInt block_align; AInt bits_per_sample;
     ABytes b_data; AInt data_size] ;;
  Ok (header ++ audio_data).

(** ** The world the agent runs in

    The file system, the wall clock, the process environment and the
    outbound calls are the agent's effects.  [print] calls are left out. *)

(** A [pathlib.Path] relative to the working directory, as its list of
    components.  [str(path)] and [Path(str)] convert between a path and
    its text; the model keeps the path. *)
Abbreviation Path := (list string).

(** [path / name] for a [name] of one component (it holds no "/"), which
    is what every use in the agent joins. *)
Definition joinpath (p : Path) (name : string) : Path := p ++ [name].

(** [path.parent] *)
Definition parent (p : Path) : Path := List.removelast p.

(** [path.name] *)
Definition path_name (p : Path) : string := List.last p EmptyString.

(** [str(path)] *)
Fixpoint str_of_path (p : Path) : string :=
  match p with
  | [] => "."
  | [c] => c
  | c :: rest => (c ++ "/" ++ str_of_path rest)%string
  end.

(** [sub in s] *)
Fixpoint contains (sub s : string) : bool :=
  String.prefix sub s ||
  match s with
  | EmptyString => false
  | String _ s' => contains sub s'
  end.


(** [s.replace(old, new)] for a non-empty [old]; [skip] counts the
    characters of a match that are still to be dropped. *)
Fixpoint replace_from (old new : string) (skip : nat) (s : string)
    : string :=
  match s with
  | EmptyString => EmptyString
  | String c s' =>
      match skip with
      | S k => replace_from old new k s'
      | O =>
          if String.prefix old s
          then (new ++ replace_from old new (String.length old - 1) s')%string
          else String c (replace_from old new O s')
      end
  end.

Definition replace (old new s : string) : string :=
  replace_from old new O s.

(** [str.isalnum] on one character. *)
Definition isalnum (c : ascii) : bool :=
  let n := code c in
  ((48 <=? n) && (n <=? 57) || (65 <=? n) && (n <=? 90)
   || (97 <=? n) && (n <=? 122)
   || (n =? 170) || (n =? 178) || (n =? 179) || (n =? 181)
   || (n =? 185) || (n =? 186) || (188 <=? n) && (n <=? 190)
   || (192 <=? n) && (n <=? 214) || (216 <=? n) && (n <=? 246)
   || (248 <=? n))%N.

Fixpoint filter_chars (keep : ascii -> bool) (s : string) : string :=
  match s with
  | EmptyString => EmptyString
  | String c s' =>
      if keep c then String c (filter_chars keep s')
      else filter_chars keep s'
  end.

(** What a file holds: text written with [write_text], or bytes. *)
Inductive content : Type :=
  | Text (s : string)
  | Binary (b : bytes).

(** A [datetime] to the second. *)
Record datetime : Type := {
  year : nat; month : nat; day : nat;
  hour : nat; minute : nat; second : nat;
}.

Definition digit_char (n : nat) : ascii := ascii_of_nat (48 + n mod 10).

Definition pad2 (n : nat) : string :=
  String (digit_char (n / 10)) (String (digit_char n) EmptyString).

Definition pad4 (n : nat) : string :=
  String (digit_char (n / 1000)) (String (digit_char (n / 100)) (pad2 n)).

(** [d.strftime("%Y%m%d_%H%M%S")], for the years of four digits. *)
Definition strftime_stamp (d : datetime) : string :=
  (pad4 (year d) ++ pad2 (month d) ++ pad2 (day d) ++ "_"
   ++ pad2 (hour d) ++ pad2 (minute d) ++ pad2 (second d))%string.

(** The speech provider's stream: [chunk.candidates[0].content.parts[0]
    .inline_data] with its [data] and [mime_type].  An attribute that is
    [None] or an empty list in Python is [None] or [[]] here. *)
Record Blob : Type := { data : bytes; mime_type : string }.
Record Part : Type := { inline_data : option Blob }.
Record Content : Type := { parts : list Part }.
Record Candidate : Type := { cand_content : option Content }.
Record Chunk : Type := { candidates : list Candidate }.

(** One attachment and the JSON body posted to the email provider.  The
    HTML body is a fixed text around [summary]; attachment contents are
    sent base64-encoded. *)
Record Attachment : Type := {
  att_filename : string;
  att_content : content;
  att_content_type : string;
}.

Record EmailData : Type := {
  email_from : string;
  email_to : list string;
  email_subject : string;
  email_summary : string;
  email_attachments : list Attachment;
}.

(** An outbound call. *)
Inductive NetCall : Type :=
  | GenerateContent (model prompt : string)
  | GenerateContentStream (model prompt : string)
  | HttpPost (url authorization : string) (body : EmailData).

(** The external collaborators: what each provider or library answers to
    a request.
    - [generate_content model prompt]: [response.text] of the language
      model ([None] when the response has no text), or an exception;
    - [generate_content_stream model prompt]: the chunks the speech
      provider yields, where the iteration may raise;
    - [guess_extension]: [mimetypes.guess_extension], an extension such as
      ".mp3" (it holds no "/") or [None];
    - [render_pdf date idea analysis]: the bytes reportlab writes, or an
      exception;
    - [format_date]: [strftime('%B %d, %Y at %I:%M %p')], which depends on
      the locale;
    - [requests_post url authorization body]: the status code of the
      response, or an exception. *)
Record Services : Type := {
  generate_content : string -> string -> result (option string);
  generate_content_stream : string -> string -> list (result Chunk);
  guess_extension : string -> option string;
  render_pdf : string -> string -> string -> result bytes;
  format_date : datetime -> string;
  requests_post : string -> string -> EmailData -> result Z;
}.

(** The state of the world: the regular files and the directories, the
    readings [datetime.now()] will return ([clock k] is the reading of
    call number [k]), the number of readings taken so far, and the
    outbound calls made so far, latest first. *)
Record World : Type := {
  files : gmap Path content;
  dirs : gset Path;
  clock : nat -> datetime;
  clock_reads : nat;
  net : list NetCall;
}.

(** A computation with effects on the world that may raise.  The effects
    of a computation that raises stay. *)
Definition M (A : Type) : Type := World -> result A * World.

Definition ret {A} (a : A) : M A := fun w => (Ok a, w).

Definition raise {A} (e : exn) : M A := fun w => (Raise e, w).

Definition lift {A} (r : result A) : M A := fun w => (r, w).

Definition bindM {A B} (m : M A) (k : A -> M B) : M B :=
  fun w =>
    match m w with
    | (Ok a, w') => k a w'
    | (Raise e, w') => (Raise e, w')
    end.

Declare Scope io_scope.
Delimit Scope io_scope with io.
Notation "x <- m ;; k" := (bindM m (fun x => k))
  (at level 60, m at next level, right associativity) : io_scope.
Notation "m ;;; k" := (bindM m (fun _ => k))
  (at level 60, right associativity) : io_scope.

(** [try: body except Exception as e: handler(e)] *)
Definition try_catch {A} (body : M A) (handler : exn -> M A) : M A :=
  fun w =>
    match body w with
    | (Ok a, w') => (Ok a, w')
    | (Raise e, w') => handler e w'
    end.

(** *** File system *)

Definition is_dir (p : Path) (w : World) : bool :=
  bool_decide (p = [] \/ p ∈ dirs w).

Definition is_file (p : Path) (w : World) : bool :=
  bool_decide (is_Some (files w !! p)).

(** [path.exists()] *)
Definition path_exists (p : Path) (w : World) : bool :=
  is_dir p w || is_file p w.

Definition set_files (f : gmap Path content) (w : World) : World :=
  {| files := f; dirs := dirs w; clock := clock w;
     clock_reads := clock_reads w; net := net w |}.

Definition set_dirs (d : gset Path) (w : World) : World :=
  {| files := files w; dirs := d; clock := clock w;
     clock_reads := clock_reads w; net := net w |}.

(** [path.mkdir(exist_ok=True)]: the parent has to be a directory, and an
    existing directory is left as it is. *)
Definition mkdir_exist_ok (p : Path) : M unit :=
  fun w =>
    if is_dir p w then (Ok tt, w)
    else if is_file p w then (Raise OSError, w)
    else if is_dir (parent p) w then (Ok tt, set_dirs ({[p]} ∪ dirs w) w)
    else (Raise OSError, w).

(** [open(path, "wb").write(c)] and [path.write_text(c)]: creates or
    replaces the file. *)
Definition write_file (p : Path) (c : content) : M unit :=
  fun w =>
    if is_dir p w then (Raise OSError, w)
    else if is_dir (parent p) w then (Ok tt, set_files (<[p := c]> (files w)) w)
    else (Raise OSError, w).

(** [open(path, "rb").read()] and [path.read_text()] *)
Definition read_file (p : Path) : M content :=
  fun w =>
    match files w !! p with
    | Some c => (Ok c, w)
    | None => (Raise OSError, w)
    end.

Definition text_of (c : content) : result string :=
  match c with
  | Text s => Ok s
  | Binary _ => Raise ValueError
  end.

(** [p] is [d] or lies below it. *)
Definition below (d p : Path) : bool := bool_decide (d `prefix_of` p).

(** Where [p] is found once the directory [src] has become [dst]. *)
Definition moved (src dst p : Path) : Path :=
  if below src p then dst ++ drop (length src) p else p.

(** Nothing lies in the directory [d]. *)
Definition is_empty_dir (d : Path) (w : World) : bool :=
  forallb (fun q => negb (bool_decide (parent q = d /\ q <> [])))
    (elements (dom (files w) ∪ dirs w)).

(** [src.rename(dst)], with the POSIX rules.  A regular file replaces an
    existing file at [dst] and cannot take the place of a directory.  A
    directory moves with all that lies below it; it can take the place of
    an empty directory only, and cannot move below itself.  In both cases
    the parent of [dst] has to be a directory. *)
Definition rename (src dst : Path) : M unit :=
  fun w =>
    match files w !! src with
    | Some c =>
        if is_dir dst w then (Raise OSError, w)
        else if is_dir (parent dst) w
        then (Ok tt, set_files (<[dst := c]> (delete src (files w))) w)
        else (Raise OSError, w)
    | None =>
        if bool_decide (src = []) || negb (is_dir src w)
        then (Raise OSError, w)
        else if bool_decide (src = dst) then (Ok tt, w)
        else if is_file dst w || below src dst || negb (is_dir (parent dst) w)
                || is_dir dst w && negb (is_empty_dir dst w)
        then (Raise OSError, w)
        else
          (Ok tt,
           {| files :=
                list_to_map
                  ((fun '(p, c) => (moved src dst p, c))
                     <$> map_to_list (files w));
              dirs := set_map (moved src dst) (dirs w);
              clock := clock w;
              clock_reads := clock_reads w;
              net := net w |})
    end.


(** *** Clock and network *)

(** [datetime.now()] *)
Definition now : M datetime :=
  fun w =>
    (Ok (clock w (clock_reads w)),
     {| files := files w; dirs := dirs w; clock := clock w;
        clock_reads := S (clock_reads w); net := net w |}).

Definition log_call (c : NetCall) : M unit :=
  fun w =>
    (Ok tt,
     {| files := files w; dirs := dirs w; clock := clock w;
        clock_reads := clock_reads w; net := c :: net w |}).

Definition get {A} (f : World -> A) : M A := fun w => (Ok (f w), w).

Open Scope io_scope.

(** ** The agent's methods *)

(** The truth value of an optional string: [None] and [""] are false. *)
Definition truthy (o : option string) : bool :=
  match o with
  | Some (String _ _) => true
  | _ => false
  end.

Definition nl : string := String (ascii_of_nat 10) EmptyString.
Definition dq : string := String (ascii_of_nat 34) EmptyString.


Definition fallback_system_prompt : string :=
  ("Your purpose is to act as a friendly and helpful business refinement agent. "
   ++ nl
   ++ "            Your task is to assist the user by providing analysis, evaluation and feedback upon a business idea."
   ++ nl
   ++ "            Write in a conversational style as Herman Poppleberry, addressing Daniel directly.")%string.

Definition load_system_prompt (self : BusinessIdeaAgent) : M string :=
  let prompt_file := ["design"; "system-prompt.md"] in
  present <- get (path_exists prompt_file) ;;
  if present then
    c <- read_file prompt_file ;;
    s <- lift (text_of c) ;;
    ret (strip s)
  else ret fallback_system_prompt.

Definition filename_prompt (business_idea : string) : string :=
  ("Based on this business idea, suggest a short, descriptive filename (2-4 words, kebab-case) that captures the essence of the idea:"
   ++ nl ++ nl ++ business_idea ++ nl ++ nl
   ++ "Respond with ONLY the filename suggestion, no explanation. Examples: "
   ++ dq ++ "ai-fitness-coach" ++ dq ++ ", "
   ++ dq ++ "smart-plant-monitor" ++ dq ++ ", "
   ++ dq ++ "crypto-learning-app" ++ dq ++ ".")%string.

(** The provider call [self.client.models.generate_content(...)] and
    [response.text]. *)
Definition call_generate_content (svc : Services) (model prompt : string)
    : M (option string) :=
  log_call (GenerateContent model prompt) ;;;
  lift (generate_content svc model prompt).

Definition generate_filename_suggestion (svc : Services)
    (self : BusinessIdeaAgent) (business_idea : string) : M string :=
  try_catch
    (response_text <-
       call_generate_content svc "gemini-2.0-flash-exp"
         (filename_prompt business_idea) ;;
     if truthy response_text then
       let suggestion := lower (strip (default EmptyString response_text)) in
       let suggestion := replace "_" "-" (replace " " "-" suggestion) in
       let suggestion :=
         filter_chars (fun c => isalnum c || Ascii.eqb c "-") suggestion in
       ret suggestion
     else ret "business-idea")
    (fun e => ret "business-idea").

Definition analysis_prompt (system_prompt business_idea : string) : string :=
  (system_prompt ++ nl ++ nl
   ++ "Here is the business idea for you to analyze:"
   ++ nl ++ nl ++ business_idea)%string.

Definition analyze_business_idea (svc : Services)
    (self : BusinessIdeaAgent) (business_idea : string) : M string :=
  system_prompt <- load_system_prompt self ;;
  let full_prompt := analysis_prompt system_prompt business_idea in
  try_catch
    (response_text <-
       call_generate_content svc "gemini-2.0-flash-exp" full_prompt ;;
     match response_text with
     | Some (String c t) => ret (String c t)
     | _ => raise (Exception "No text response received from Gemini")
     end)
    (fun e => raise e).

Definition voice_instruction (voice_style : string) : string :=
  let serious := "Read this text in a stern and authoritative voice. Emulate the cadence and tone of voice of a judge delivering a verdict." in
  let flippant := "Read this text with a sense of sadness and defeatism as if you are delivering hopeless news to somebody." in
  let upbeat := "Read this text in a highly encouraging and upbeat tone of voice - the kind that you might hear in a cheesy radio informercial" in
  if String.eqb voice_style "serious" then serious
  else if String.eqb voice_style "flippant" then flippant
  else upbeat.

(** [_save_binary_file] *)
Definition _save_binary_file (self : BusinessIdeaAgent) (file_path : Path)
    (data : bytes) : M unit :=
  write_file file_path (Binary data).

(** The test of the loop body on a chunk: the inline data of the first
    part of the first candidate, when all of [chunk.candidates],
    [.content], [.parts], [.inline_data] and [.inline_data.data] are
    true. *)
Definition chunk_inline_data (chunk : Chunk) : option Blob :=
  match candidates chunk with
  | [] => None
  | candidate :: _ =>
      match cand_content candidate with
      | None => None
      | Some c =>
          match parts c with
          | [] => None
          | part :: _ =>
              match inline_data part with
              | None => None
              | Some blob =>
                  match data blob with
                  | [] => None
                  | _ :: _ => Some blob
                  end
              end
          end
      end
  end.

(** The [for chunk in ...generate_content_stream(...)] loop of
    [generate_audio_feedback] and the [raise] after it. *)
Fixpoint consume_stream (svc : Services) (self : BusinessIdeaAgent)
    (audio_filename : string) (stream : list (result Chunk)) : M Path :=
  match stream with
  | [] => raise (Exception "No audio data received from TTS")
  | Raise e :: _ => raise e
  | Ok chunk :: rest =>
      match chunk_inline_data chunk with
      | Some inline_data =>
          let data_buffer := data inline_data in
          let file_extension := guess_extension svc (mime_type inline_data) in
          converted <-
            match file_extension with
            | None =>
                wav <- lift (_convert_to_wav self (data inline_data)
                               (mime_type inline_data)) ;;
                ret (".wav", wav)
            | Some ext => ret (ext, data_buffer)
            end ;;
          let '(file_extension, data_buffer) := converted in
          let final_path :=
            joinpath (output_dir self)
              (replace ".wav" "" audio_filename ++ file_extension)%string in
          _save_binary_file self final_path data_buffer ;;;
          ret final_path
      | None => consume_stream svc self audio_filename rest
      end
  end.

Definition generate_audio_feedback (svc : Services)
    (self : BusinessIdeaAgent) (analysis_text voice_style : string)
    : M Path :=
  let instruction := voice_instruction voice_style in
  let tts_prompt := (instruction ++ nl ++ nl ++ analysis_text)%string in
  try_catch
    (d <- now ;;
     let timestamp := strftime_stamp d in
     let audio_filename :=
       ("business_analysis_" ++ timestamp ++ ".wav")%string in
     log_call (GenerateContentStream "gemini-2.5-flash-preview-tts" tts_prompt) ;;;
     consume_stream svc self audio_filename
       (generate_content_stream svc "gemini-2.5-flash-preview-tts" tts_prompt))
    (fun e => raise e).

Definition markdown_content (date business_idea analysis_text : string)
    : string :=
  ("# Business Idea Analysis" ++ nl
   ++ "**Date**: " ++ date ++ "  " ++ nl
   ++ "**Analyst**: Herman Poppleberry" ++ nl ++ nl
   ++ "## Original Business Idea" ++ nl ++ nl
   ++ business_idea ++ nl ++ nl
   ++ "## Analysis & Feedback" ++ nl ++ nl
   ++ analysis_text ++ nl ++ nl
   ++ "---" ++ nl
   ++ "*Generated by Business Idea Refinement Agent*" ++ nl)%string.

Definition generate_markdown_file (svc : Services)
    (self : BusinessIdeaAgent)
    (analysis_text business_idea filename_base : string)
    (output_folder : Path) : M Path :=
  let markdown_filename := (filename_base ++ ".md")%string in
  let markdown_path := joinpath output_folder markdown_filename in
  d <- now ;;
  let text := markdown_content (format_date svc d) business_idea analysis_text in
  write_file markdown_path (Text text) ;;;
  ret markdown_path.

Definition generate_pdf_file (svc : Services) (self : BusinessIdeaAgent)
    (analysis_text business_idea filename_base : string)
    (output_folder : Path) : M Path :=
  let pdf_filename := (filename_base ++ ".pdf")%string in
  let pdf_path := joinpath output_folder pdf_filename in
  d <- now ;;
  pdf <- lift (render_pdf svc (format_date svc d) business_idea analysis_text) ;;
  write_file pdf_path (Binary pdf) ;;;
  ret pdf_path.

Definition email_url : string := "https://api.resend.com/emails".

Definition send_email_with_attachments (svc : Services)
    (self : BusinessIdeaAgent) (analysis_text : string)
    (audio_file_path markdown_file_path pdf_file_path : Path) : M bool :=
  if negb (truthy (resend_api_key self)) then ret false
  else
    try_catch
      (audio_data <- read_file audio_file_path ;;
       markdown_data <- read_file markdown_file_path ;;
       pdf_data <- read_file pdf_file_path ;;
       let summary :=
         if (200 <? String.length analysis_text)%nat
         then (String.substring 0 200 analysis_text ++ "...")%string
         else analysis_text in
       let email_data :=
         {| email_from := "Herman Poppleberry <noreply@danielrosehill.co.il>";
            email_to := [user_email self];
            email_subject := "Your Business Idea Analysis from Herman Poppleberry";
            email_summary := summary;
            email_attachments :=
              [ {| att_filename := path_name audio_file_path;
                   att_content := audio_data;
                   att_content_type := "audio/wav" |};
                {| att_filename := path_name markdown_file_path;
                   att_content := markdown_data;
                   att_content_type := "text/markdown" |};
                {| att_filename := path_name pdf_file_path;
                   att_content := pdf_data;
                   att_content_type := "application/pdf" |} ] |} in
       let authorization :=
         ("Bearer " ++ default EmptyString (resend_api_key self))%string in
       log_call (HttpPost email_url authorization email_data) ;;;
       status_code <- lift (requests_post svc email_url authorization email_data) ;;
       if status_code =? 200 then ret true else ret false)
      (fun e => ret false).

Definition move_idea_to_evaluated (self : BusinessIdeaAgent)
    (input_file_path : Path) : M Path :=
  let input_path := input_file_path in
  present <- get (path_exists input_path) ;;
  if present && contains "pending" (str_of_path input_path) then
    let evaluated_path := joinpath (evaluated_dir self) (path_name input_path) in
    rename input_path evaluated_path ;;;
    ret evaluated_path
  else ret input_file_path.


(** The dictionary [results] that [process_business_idea] returns. *)
Record Results : Type := {
  res_timestamp : datetime;
  res_business_idea : string;
  res_voice_style : string;
  res_analysis_text : option string;
  res_audio_file : option Path;
  res_email_sent : bool;
  res_markdown_file : option Path;
  res_pdf_file : option Path;
  res_text_file : option Path;
  res_moved_to_evaluated : option Path;
}.

(** The name of the output folder of an idea. *)
Definition folder_name (d : datetime) (filename_suggestion : string)
    : string :=
  (strftime_stamp d ++ "_" ++ filename_suggestion)%string.

Definition process_business_idea (svc : Services)
    (self : BusinessIdeaAgent) (business_idea voice_style : string)
    (send_email : bool) (input_file_path : option Path) : M Results :=
  started <- now ;;
  try_catch
    (analysis_text <- analyze_business_idea svc self business_idea ;;
     filename_suggestion <-
       generate_filename_suggestion svc self business_idea ;;
     d <- now ;;
     let output_folder :=
       joinpath (output_dir self) (folder_name d filename_suggestion) in
     mkdir_exist_ok output_folder ;;;
     audio_file <- generate_audio_feedback svc self analysis_text voice_style ;;
     let audio_filename := (filename_suggestion ++ "_audio.wav")%string in
     let new_audio_path := joinpath output_folder audio_filename in
     rename audio_file new_audio_path ;;;
     let audio_file := new_audio_path in
     markdown_file <-
       generate_markdown_file svc self analysis_text business_idea
         (filename_suggestion ++ "_analysis")%string output_folder ;;
     pdf_file <-
       generate_pdf_file svc self analysis_text business_idea
         (filename_suggestion ++ "_analysis")%string output_folder ;;
     let text_file :=
       joinpath output_folder (filename_suggestion ++ "_analysis.txt")%string in
     write_file text_file (Text analysis_text) ;;;
     email_sent <-
       (if send_email
        then send_email_with_attachments svc self analysis_text
               audio_file markdown_file pdf_file
        else ret false) ;;
     moved <-
       match input_file_path with
       | Some p => moved_path <- move_idea_to_evaluated self p ;; ret (Some moved_path)
       | None => ret None
       end ;;
     ret {| res_timestamp := started;
            res_business_idea := business_idea;
            res_voice_style := voice_style;
            res_analysis_text := Some analysis_text;
            res_audio_file := Some audio_file;
            res_email_sent := email_sent;
            res_markdown_file := Some markdown_file;
            res_pdf_file := Some pdf_file;
            res_text_file := Some text_file;
            res_moved_to_evaluated := moved |})
    (fun e => raise e).

(** ** The command line *)







(** ** Notions used to state the properties *)

(** The unsigned little-endian number in the [size] bytes at [offset]. *)
Definition field (offset size : nat) (b : bytes) : Z :=
  unpack_le (take size (drop offset b)).

(** The parameters and the payload length whose header values fit the
    unsigned fields of the format string: 4 bytes for the sample rate, the
    byte rate and the two sizes, 2 bytes for the bits per sample and the
    block alignment. *)
Definition header_fits (p : AudioParams) (n : nat) : Prop :=
  0 <= rate p < 2 ^ 32 /\
  0 <= bits_per_sample p < 2 ^ 16 /\
  rate p * (bits_per_sample p / 8) < 2 ^ 32 /\
  36 + Z.of_nat n < 2 ^ 32.

Definition is_digit (c : ascii) : bool :=
  ((48 <=? code c) && (code c <=? 57))%N.

Fixpoint all_digits (s : string) : bool :=
  match s with
  | EmptyString => true
  | String c s' => is_digit c && all_digits s'
  end.

(** The number a string of decimal digits denotes, by position. *)
Fixpoint decimal_value (s : string) : Z :=
  match s with
  | EmptyString => 0
  | String c s' =>
      (Z.of_N (code c) - 48) * 10 ^ Z.of_nat (String.length s')
      + decimal_value s'
  end.

(** A descriptor parameter is a rate parameter when, stripped and in
    lower case, it starts with "rate="; its value is the text after these
    five characters. *)
Definition is_rate_param (param : string) : bool :=
  startswith (lower (strip param)) "rate=".

Definition rate_text (param : string) : string :=
  let p := strip param in String.substring 5 (String.length p - 5) p.

Definition is_bits_param (param : string) : bool :=
  negb (is_rate_param param) && startswith (strip param) "audio/L".

(** An agent as [__init__] leaves it, for a given pair of API keys. *)
Definition agent_with (gemini resend : option string) : BusinessIdeaAgent :=
  {| gemini_api_key := gemini;
     resend_api_key := resend;
     user_email := "daniel@danielrosehill.com";
     output_dir := ["agent"; "feedback"];
     pending_dir := ["agent"; "user-ideas"; "pending"];
     evaluated_dir := ["agent"; "user-ideas"; "evaluated"] |}.

(** A chunk the loop of [generate_audio_feedback] passes over: it
    arrived, and it holds no inline data. *)
Definition no_audio (r : result Chunk) : Prop :=
  exists chunk, r = Ok chunk /\ chunk_inline_data chunk = None.

(** The request [generate_audio_feedback] sends to the speech provider. *)
Definition tts_model : string := "gemini-2.5-flash-preview-tts".

Definition tts_prompt (analysis_text voice_style : string) : string :=
  (voice_instruction voice_style ++ nl ++ nl ++ analysis_text)%string.

(** The file [generate_audio_feedback] writes when the clock reads [d]
    and the extension is [file_extension]. *)
Definition audio_file_path (self : BusinessIdeaAgent) (d : datetime)
    (file_extension : string) : Path :=
  joinpath (output_dir self)
    (replace ".wav" "" ("business_analysis_" ++ strftime_stamp d ++ ".wav")
     ++ file_extension)%string.

(** [c * n], the string of [n] characters [c]. *)
Fixpoint repeat_char (c : ascii) (n : nat) : string :=
  match n with
  | O => EmptyString
  | S n' => String c (repeat_char c n')
  end.

(** A numeral with an optional sign: the sign, and the number it
    denotes. *)
Definition is_sign (sign : string) : Prop :=
  sign = "" \/ sign = "+" \/ sign = "-".

Definition signed_value (sign digits : string) : Z :=
  if String.eqb sign "-" then - decimal_value digits
  else decimal_value digits.

(** The world [w] with the files [f] and the directories [d], after
    [reads] more readings of the clock and the outbound calls [calls]
    (latest first). *)
Definition world_after (w : World) (f : gmap Path content) (d : gset Path)
    (reads : nat) (calls : list NetCall) : World :=
  {| files := f; dirs := d; clock := clock w;
     clock_reads := (reads + clock_reads w)%nat; net := calls ++ net w |}.

(** The model of the language model the agent asks. *)
Definition llm_model : string := "gemini-2.0-flash-exp".
(** The four artifacts of an idea in its output folder. *)
Definition audio_artifact (folder : Path) (suggestion : string) : Path :=
  joinpath folder (suggestion ++ "_audio.wav").
Definition markdown_artifact (folder : Path) (suggestion : string) : Path :=
  joinpath folder (suggestion ++ "_analysis.md").
Definition pdf_artifact (folder : Path) (suggestion : string) : Path :=
  joinpath folder (suggestion ++ "_analysis.pdf").
Definition text_artifact (folder : Path) (suggestion : string) : Path :=
  joinpath folder (suggestion ++ "_analysis.txt").

(** The agent [__init__] builds from the environment. *)
Definition agent_of_env (env : gmap string string) : BusinessIdeaAgent :=
  {| gemini_api_key := env !! "GEMINI_API_KEY";
     resend_api_key := env !! "RESEND_API_KEY";
     user_email := default "daniel@danielrosehill.com" (env !! "USER_EMAIL");
     output_dir := ["agent"; "feedback"];
     pending_dir := ["agent"; "user-ideas"; "pending"];
     evaluated_dir := ["agent"; "user-ideas"; "evaluated"] |}.


Definition is_http_post (c : NetCall) : bool :=
  match c with
  | HttpPost _ _ _ => true
  | _ => false
  end.
(** An environment with the language model's key only. *)
Definition example_env : gmap string string :=
  {[ "GEMINI_API_KEY" := "key" ]}.


(** ** Examples

    A speech stream, providers, and a world to run the agent in. *)

Definition audio_chunk (b : bytes) (m : string) : Chunk :=
  {| candidates :=
       [ {| cand_content :=
              Some {| parts :=
                        [ {| inline_data :=
                               Some {| data := b; mime_type := m |} |} ] |} |} ] |}.

Definition example_stream : list (result Chunk) :=
  [Ok {| candidates := [] |};
   Ok (audio_chunk [x01; x02] "audio/L16;codec=pcm;rate=24000");
   Ok (audio_chunk [x03] "audio/mpeg");
   Raise (Exception "connection lost")].

Definition example_services (stream : list (result Chunk)) : Services :=
  {| generate_content := fun model prompt =>
       if String.prefix "Based on" prompt then Ok (Some "My Idea")
       else Ok (Some "Looks good.");
     generate_content_stream := fun _ _ => stream;
     guess_extension := fun m =>
       if String.eqb m "audio/mpeg" then Some ".mp3" else None;
     render_pdf := fun _ _ _ => Ok [x25; x50; x44; x46];
     format_date := fun _ => "January 01, 2025 at 12:00 PM";
     requests_post := fun _ _ _ => Ok 200 |}.

Definition example_world : World :=
  {| files :=
       {[ ["agent"; "user-ideas"; "pending"; "a.md"] := Text "idea one" ]};
     dirs := {[ ["agent"]; ["agent"; "feedback"]; ["agent"; "user-ideas"];
                ["agent"; "user-ideas"; "pending"];
                ["agent"; "user-ideas"; "evaluated"] ]};
     clock := fun _ =>
       {| year := 2025; month := 1; day := 1;
          hour := 12; minute := 0; second := 0 |};
     clock_reads := 0;
     net := [] |}.

(** * Part II: lemmas and theorems *)

(** ** Little-endian fields *)

Lemma Z_of_byte_of_Z (z : Z) : Z_of_byte (byte_of_Z z) = z mod 256.
Proof.
  unfold Z_of_byte, byte_of_Z.
  assert (Hm : 0 <= z mod 256 < 256) by (apply Z.mod_pos_bound; lia).
  destruct (Byte.of_N (Z.to_N (z mod 256))) as [b|] eqn:E; simpl.
  - apply Byte.to_of_N in E. rewrite E. lia.
  - apply Byte.of_N_None_iff in E. lia.
Qed.

Lemma length_pack_le (n : nat) (z : Z) : length (pack_le n z) = n.
Proof. revert z. induction n as [|n IH]; intros z; simpl; [done|]. by rewrite IH. Qed.

Lemma unpack_pack_le (n : nat) (z : Z) :
  0 <= z < 256 ^ Z.of_nat n -> unpack_le (pack_le n z) = z.
Proof.
  revert z. induction n as [|n IH]; intros z Hz.
  - simpl in *. lia.
  - cbn [pack_le unpack_le]. rewrite Z_of_byte_of_Z.
    rewrite Nat2Z.inj_succ, Z.pow_succ_r in Hz by lia.
    rewrite IH.
    + pose proof (Z.div_mod z 256). lia.
    + split; [apply Z.div_pos; lia|].
      apply Z.div_lt_upper_bound; lia.
Qed.

Lemma pack_uint_ok (width : nat) (z : Z) :
  0 <= z < 256 ^ Z.of_nat width -> pack_uint width z = Ok (pack_le width z).
Proof.
  intros [H0 H1]. unfold pack_uint.
  destruct (Z.leb_spec 0 z); [|lia]. destruct (Z.ltb_spec z (256 ^ Z.of_nat width)); [done|lia].
Qed.

Lemma pack_uint_raises (width : nat) (z : Z) :
  ~ 0 <= z < 256 ^ Z.of_nat width -> pack_uint width z = Raise StructError.
Proof.
  intros H. unfold pack_uint.
  destruct (Z.leb_spec 0 z); [|done]. destruct (Z.ltb_spec z (256 ^ Z.of_nat width)); [lia|done].
Qed.

(** ** The WAV encoder *)

(** The header as the concatenation of its thirteen fields. *)
Lemma convert_to_wav_ok (self : BusinessIdeaAgent) (audio_data : bytes)
    (mime_type : string) (p : AudioParams) :
  _parse_audio_mime_type self mime_type = Ok p ->
  header_fits p (length audio_data) ->
  _convert_to_wav self audio_data mime_type =
    Ok ((b_RIFF ++ pack_le 4 (36 + Z.of_nat (length audio_data))
         ++ b_WAVE ++ b_fmt ++ pack_le 4 16 ++ pack_le 2 1 ++ pack_le 2 1
         ++ pack_le 4 (rate p)
         ++ pack_le 4 (rate p * (bits_per_sample p / 8))
         ++ pack_le 2 (bits_per_sample p / 8)
         ++ pack_le 2 (bits_per_sample p)
         ++ b_data ++ pack_le 4 (Z.of_nat (length audio_data)))
        ++ audio_data).
Proof.
  intros Hp (Hr & Hb & Hbr & Hn).
  assert (Hdiv : 0 <= bits_per_sample p / 8 < 2 ^ 16).
  { split; [apply Z.div_pos; lia|].
    apply Z.div_lt_upper_bound; lia. }
  assert (Hmul : 0 <= rate p * (bits_per_sample p / 8)) by nia.
  unfold _convert_to_wav. rewrite Hp. cbn [bind].
  unfold wav_header_format. cbn [struct_pack pack_field bind].
  rewrite !Z.mul_1_l.
  rewrite !pack_uint_ok by (change (256 ^ Z.of_nat 4) with (2 ^ 32);
                            change (256 ^ Z.of_nat 2) with (2 ^ 16); lia).
  cbn [bind]. reflexivity.
Qed.

(** Outside these bounds [struct.pack] raises. *)
Lemma convert_to_wav_raises (self : BusinessIdeaAgent) (audio_data : bytes)
    (mime_type : string) (p : AudioParams) :
  _parse_audio_mime_type self mime_type = Ok p ->
  ~ header_fits p (length audio_data) ->
  _convert_to_wav self audio_data mime_type = Raise StructError.
Proof.
  intros Hp Hnot.
  unfold _convert_to_wav. rewrite Hp. cbn [bind].
  unfold wav_header_format. cbn [struct_pack pack_field bind].
  rewrite !Z.mul_1_l.
  set (n := Z.of_nat (length audio_data)) in *.
  assert (Hn0 : 0 <= n) by lia.
  assert (Hfield : forall w z,
            pack_uint w z = Raise StructError
            \/ (pack_uint w z = Ok (pack_le w z)
                /\ 0 <= z < 256 ^ Z.of_nat w)).
  { intros w z. destruct (decide (0 <= z < 256 ^ Z.of_nat w)).
    - right. split; [by apply pack_uint_ok|done].
    - left. by apply pack_uint_raises. }
  repeat match goal with
  | |- context [pack_uint ?w ?z] =>
      destruct (Hfield w z) as [-> | [-> ?]]; cbn [bind]; [reflexivity|]
  end.
  exfalso. apply Hnot. unfold header_fits. fold n.
  change (256 ^ Z.of_nat 4) with (2 ^ 32) in *.
  change (256 ^ Z.of_nat 2) with (2 ^ 16) in *.
  lia.
Qed.

Lemma field_header_prefix (offset size : nat) (header payload : bytes) :
  (offset + size <= length header)%nat ->
  field offset size (header ++ payload) = field offset size header.
Proof.
  intros H. unfold field. f_equal.
  rewrite drop_app_le by lia.
  rewrite take_app_le; [done|]. rewrite length_drop. lia.
Qed.

(** Where each field lies in the header. *)
Lemma header_layout (cs sr br ba bps ds : Z) :
  let h := b_RIFF ++ pack_le 4 cs ++ b_WAVE ++ b_fmt ++ pack_le 4 16
           ++ pack_le 2 1 ++ pack_le 2 1 ++ pack_le 4 sr ++ pack_le 4 br
           ++ pack_le 2 ba ++ pack_le 2 bps ++ b_data ++ pack_le 4 ds in
  length h = 44%nat /\
  take 4 h = b_RIFF /\
  field 4 4 h = unpack_le (pack_le 4 cs) /\
  take 4 (drop 8 h) = b_WAVE /\
  take 4 (drop 12 h) = b_fmt /\
  field 16 4 h = unpack_le (pack_le 4 16) /\
  field 20 2 h = unpack_le (pack_le 2 1) /\
  field 22 2 h = unpack_le (pack_le 2 1) /\
  field 24 4 h = unpack_le (pack_le 4 sr) /\
  field 28 4 h = unpack_le (pack_le 4 br) /\
  field 32 2 h = unpack_le (pack_le 2 ba) /\
  field 34 2 h = unpack_le (pack_le 2 bps) /\
  take 4 (drop 36 h) = b_data /\
  field 40 4 h = unpack_le (pack_le 4 ds).
Proof. repeat split; reflexivity. Qed.

(** C1, as amended: for a payload of [n] bytes and a descriptor whose
    parsed rate and bits per sample fit the header's unsigned fields
    together with [n], the encoder returns a 44-byte header followed by
    the payload, unmodified; the 4 little-endian bytes at offset 4
    (ChunkSize) read [36 + n] and those at offset 40 (Subchunk2Size)
    read [n]. *)
Theorem convert_to_wav_sizes (self : BusinessIdeaAgent)
    (audio_data : bytes) (mime_type : string) (p : AudioParams) :
  _parse_audio_mime_type self mime_type = Ok p ->
  header_fits p (length audio_data) ->
  exists header : bytes,
    _convert_to_wav self audio_data mime_type = Ok (header ++ audio_data) /\
    length header = 44%nat /\
    field 4 4 (header ++ audio_data) = 36 + Z.of_nat (length audio_data) /\
    field 40 4 (header ++ audio_data) = Z.of_nat (length audio_data).
Proof.
  intros Hp Hfits.
  eexists. split; [apply (convert_to_wav_ok _ _ _ _ Hp Hfits)|].
  destruct Hfits as (Hr & Hb & Hbr & Hn).
  match goal with |- length ?h = _ /\ _ =>
    pose proof (header_layout (36 + Z.of_nat (length audio_data)) (rate p)
      (rate p * (bits_per_sample p / 8)) (bits_per_sample p / 8)
      (bits_per_sample p) (Z.of_nat (length audio_data))) as HL end.
  cbv zeta in HL.
  destruct HL as (Hlen & _ & Hcs & _ & _ & _ & _ & _ & _ & _ & _ & _ & _ & Hds).
  split; [exact Hlen|].
  rewrite (field_header_prefix 4 4), (field_header_prefix 40 4)
    by (rewrite Hlen; lia).
  split.
  - etrans; [exact Hcs|].
    apply unpack_pack_le. change (256 ^ Z.of_nat 4) with (2 ^ 32). lia.
  - etrans; [exact Hds|].
    apply unpack_pack_le. change (256 ^ Z.of_nat 4) with (2 ^ 32). lia.
Qed.

(** C2: for a (rate, bits per sample) pair that descriptor parsing
    returns and that is valid, that is, fits the unsigned fields of the
    header, the encoder writes a header whose little-endian fields at the
    offsets of the 44-byte PCM layout read: Subchunk1Size 16 (offset 16),
    AudioFormat 1 (offset 20), NumChannels 1 (offset 22), SampleRate the
    parsed rate (offset 24), ByteRate rate * (bits / 8) (offset 28),
    BlockAlign bits / 8 (offset 32) and BitsPerSample the parsed bits
    (offset 34), between the literals RIFF, WAVE, fmt and data. *)
Theorem convert_to_wav_format_fields (self : BusinessIdeaAgent)
    (audio_data : bytes) (mime_type : string) (p : AudioParams) :
  _parse_audio_mime_type self mime_type = Ok p ->
  header_fits p (length audio_data) ->
  exists out : bytes,
    _convert_to_wav self audio_data mime_type = Ok out /\
    take 4 out = b_RIFF /\
    take 4 (drop 8 out) = b_WAVE /\
    take 4 (drop 12 out) = b_fmt /\
    field 16 4 out = 16 /\
    field 20 2 out = 1 /\
    field 22 2 out = 1 /\
    field 24 4 out = rate p /\
    field 28 4 out = rate p * (bits_per_sample p / 8) /\
    field 32 2 out = bits_per_sample p / 8 /\
    field 34 2 out = bits_per_sample p /\
    take 4 (drop 36 out) = b_data.
Proof.
  intros Hp Hfits.
  eexists. split; [apply (convert_to_wav_ok _ _ _ _ Hp Hfits)|].
  destruct Hfits as (Hr & Hb & Hbr & Hn).
  assert (Hdiv : 0 <= bits_per_sample p / 8 < 2 ^ 16).
  { split; [apply Z.div_pos; lia|]. apply Z.div_lt_upper_bound; lia. }
  assert (Hmul : 0 <= rate p * (bits_per_sample p / 8)) by nia.
  pose proof (header_layout (36 + Z.of_nat (length audio_data)) (rate p)
    (rate p * (bits_per_sample p / 8)) (bits_per_sample p / 8)
    (bits_per_sample p) (Z.of_nat (length audio_data))) as HL.
  cbv zeta in HL.
  destruct HL as (Hlen & H0 & _ & H8 & H12 & H16 & H20 & H22 & H24 & H28
                  & H32 & H34 & H36 & _).
  assert (Htake : forall k (h d : bytes),
             length h = 44%nat -> (k + 4 <= 44)%nat ->
             take 4 (drop k (h ++ d)) = take 4 (drop k h)).
  { intros k h d Hh Hk. rewrite drop_app_le by lia.
    rewrite take_app_le; [done|]. rewrite length_drop. lia. }
  assert (Hfield : forall k n (h d : bytes) v,
             length h = 44%nat -> (k + n <= 44)%nat ->
             field k n h = unpack_le (pack_le n v) ->
             0 <= v < 256 ^ Z.of_nat n ->
             field k n (h ++ d) = v).
  { intros k n h d v Hh Hk Hf Hv.
    rewrite field_header_prefix by lia. rewrite Hf.
    by apply unpack_pack_le. }
  repeat apply conj.
  - etrans; [exact (Htake 0%nat _ audio_data Hlen ltac:(lia))|exact H0].
  - etrans; [exact (Htake 8%nat _ audio_data Hlen ltac:(lia))|exact H8].
  - etrans; [exact (Htake 12%nat _ audio_data Hlen ltac:(lia))|exact H12].
  - apply Hfield; [done|lia|done|]. change (256 ^ Z.of_nat 4) with (2 ^ 32). lia.
  - apply Hfield; [done|lia|done|]. change (256 ^ Z.of_nat 2) with (2 ^ 16). lia.
  - apply Hfield; [done|lia|done|]. change (256 ^ Z.of_nat 2) with (2 ^ 16). lia.
  - apply Hfield; [done|lia|done|]. change (256 ^ Z.of_nat 4) with (2 ^ 32). lia.
  - apply Hfield; [done|lia|done|]. change (256 ^ Z.of_nat 4) with (2 ^ 32). lia.
  - apply Hfield; [done|lia|done|]. change (256 ^ Z.of_nat 2) with (2 ^ 16). lia.
  - apply Hfield; [done|lia|done|]. change (256 ^ Z.of_nat 2) with (2 ^ 16). lia.
  - etrans; [exact (Htake 36%nat _ audio_data Hlen ltac:(lia))|exact H36].
Qed.

(** ** Descriptor parsing *)

Ltac ascii_cases c := destruct c as [[] [] [] [] [] [] [] []].

Lemma int_raises (s : string) (e : exn) : int s = Raise e -> e = ValueError.
Proof.
  unfold int.
  destruct (match strip_with isspace_int s with
            | String "-" r => Z.opp <$> digits_value 0 false r
            | String "+" r => digits_value 0 false r
            | _ => digits_value 0 false (strip_with isspace_int s)
            end); [|congruence].
  destruct (_ <=? _)%nat; [discriminate|congruence].
Qed.

Lemma index_raises {A} (l : list A) (i : nat) (e : exn) :
  index l i = Raise e -> e = IndexError.
Proof. unfold index. destruct (l !! i); [discriminate|congruence]. Qed.

(** The two [try] blocks of the loop body let no exception escape. *)
Lemma try_int_field_total (l : list string) (k : Z -> AudioParams)
    (acc : AudioParams) :
  exists acc',
    try_except (s <- index l 1 ;; z <- int s ;; Ok (k z))%py
      is_ValueError_or_IndexError (Ok acc) = Ok acc'.
Proof.
  unfold try_except.
  destruct (index l 1) as [s|e] eqn:Hi; cbn [bind].
  - destruct (int s) as [z|e] eqn:Hz; cbn [bind]; [by eexists|].
    apply int_raises in Hz as ->. by eexists.
  - apply index_raises in Hi as ->. by eexists.
Qed.

Lemma parse_param_total (acc : AudioParams) (param : string) :
  exists acc', parse_param acc param = Ok acc'.
Proof.
  unfold parse_param.
  destruct (startswith (lower (strip param)) "rate=").
  - apply (try_int_field_total _
             (fun r => {| bits_per_sample := bits_per_sample acc; rate := r |})).
  - destruct (startswith (strip param) "audio/L"); [|by eexists].
    apply (try_int_field_total _
             (fun b => {| bits_per_sample := b; rate := rate acc |})).
Qed.

Lemma parse_params_total (parts : list string) (acc : AudioParams) :
  exists acc', parse_params acc parts = Ok acc'.
Proof.
  revert acc. induction parts as [|param rest IH]; intros acc; cbn [parse_params].
  - by eexists.
  - destruct (parse_param_total acc param) as [acc' ->]. cbn [bind]. apply IH.
Qed.

Lemma parse_audio_mime_type_total (self : BusinessIdeaAgent) (mime_type : string) :
  exists p, _parse_audio_mime_type self mime_type = Ok p.
Proof. apply parse_params_total. Qed.

(** A parameter that is neither a rate nor a bits parameter changes
    nothing. *)
Lemma parse_param_other (acc : AudioParams) (param : string) :
  is_rate_param param = false -> is_bits_param param = false ->
  parse_param acc param = Ok acc.
Proof.
  unfold is_bits_param, is_rate_param, parse_param. intros Hr Hb.
  rewrite Hr in Hb |- *. cbn [negb andb] in Hb. by rewrite Hb.
Qed.

Lemma parse_params_other (parts : list string) (acc : AudioParams) :
  Forall (fun param => is_rate_param param = false /\ is_bits_param param = false)
    parts ->
  parse_params acc parts = Ok acc.
Proof.
  induction 1 as [|param rest [Hr Hb] _ IH]; cbn [parse_params]; [done|].
  rewrite parse_param_other by done. exact IH.
Qed.

(** *** Where the loop body finds the value of a rate parameter *)

Lemma split_no_more (sep : ascii) (s : string) : split sep (Some O) s = [s].
Proof.
  induction s as [|c s IH]; cbn [split]; [done|].
  rewrite IH. by rewrite andb_false_r.
Qed.

Lemma substring_all (s : string) : String.substring 0 (String.length s) s = s.
Proof. induction s as [|c s IH]; cbn; [done|]. by rewrite IH. Qed.

Lemma lower_char_equals_sign (c : ascii) :
  lower_char c = "="%char -> c = "="%char.
Proof. ascii_cases c; vm_compute; congruence. Qed.

Lemma lower_char_rate_letters (c : ascii) :
  lower_char c = "r"%char \/ lower_char c = "a"%char
  \/ lower_char c = "t"%char \/ lower_char c = "e"%char ->
  Ascii.eqb c "=" = false.
Proof. ascii_cases c; vm_compute; intuition congruence. Qed.

Lemma split_rate_param (p : string) :
  startswith (lower p) "rate=" = true ->
  split "=" (Some 1%nat) p !! 1%nat
  = Some (String.substring 5 (String.length p - 5) p).
Proof.
  unfold startswith.
  destruct p as [|c1 [|c2 [|c3 [|c4 [|c5 rest]]]]]; cbn [lower String.prefix];
    repeat (match goal with
            | |- context [ascii_dec ?a ?b] => destruct (ascii_dec a b)
            end);
    try (intros H; discriminate H).
  intros _.
  assert (H1 : Ascii.eqb c1 "=" = false) by (apply lower_char_rate_letters; auto).
  assert (H2 : Ascii.eqb c2 "=" = false) by (apply lower_char_rate_letters; auto).
  assert (H3 : Ascii.eqb c3 "=" = false) by (apply lower_char_rate_letters; auto).
  assert (H4 : Ascii.eqb c4 "=" = false) by (apply lower_char_rate_letters; auto).
  assert (H5 : c5 = "="%char) by (by apply lower_char_equals_sign).
  subst c5. cbn [split]. rewrite H1, H2, H3, H4. cbn [andb].
  change (Ascii.eqb "=" "=") with true. cbn [andb negb fmap option_fmap option_map Nat.pred].
  rewrite bool_decide_eq_false_2 by discriminate. cbn [negb].
  rewrite split_no_more. cbn [lookup list_lookup].
  f_equal. cbn [String.length Nat.sub String.substring].
  by rewrite Nat.sub_0_r, substring_all.
Qed.

(** A rate parameter sets the rate when [int] accepts its value and
    changes nothing when [int] raises. *)
Lemma parse_param_rate (acc : AudioParams) (param : string) :
  is_rate_param param = true ->
  parse_param acc param =
    match int (rate_text param) with
    | Ok r => Ok {| bits_per_sample := bits_per_sample acc; rate := r |}
    | Raise _ => Ok acc
    end.
Proof.
  unfold is_rate_param, rate_text, parse_param. intros H. rewrite H.
  unfold index. rewrite (split_rate_param _ H). cbn [bind].
  unfold try_except.
  destruct (int _) as [r|e] eqn:Hi; cbn [bind]; [done|].
  by apply int_raises in Hi as ->.
Qed.

Lemma parse_param_keeps_rate (acc acc' : AudioParams) (param : string) :
  is_rate_param param = false ->
  parse_param acc param = Ok acc' -> rate acc' = rate acc.
Proof.
  unfold is_rate_param, parse_param. intros ->.
  destruct (startswith (strip param) "audio/L"); [|congruence].
  unfold try_except.
  destruct (index _ 1) as [s|e]; cbn [bind].
  - destruct (int s) as [z|e]; cbn [bind].
    + intros [= <-]. done.
    + destruct (is_ValueError_or_IndexError e); congruence.
  - destruct (is_ValueError_or_IndexError e); congruence.
Qed.

(** When [int] rejects the value of every rate parameter, the default
    rate stays. *)
Lemma parse_params_unparseable_rate (parts : list string)
    (acc acc' : AudioParams) :
  Forall (fun param => is_rate_param param = true ->
                       int (rate_text param) = Raise ValueError) parts ->
  parse_params acc parts = Ok acc' -> rate acc' = rate acc.
Proof.
  intros H. revert acc. induction H as [|param rest Hp _ IH]; intros acc;
    cbn [parse_params].
  - by intros [= <-].
  - destruct (parse_param acc param) as [acc1|e] eqn:H1; cbn [bind]; [|done].
    intros H2. rewrite (IH _ H2).
    destruct (is_rate_param param) eqn:Hr.
    + rewrite parse_param_rate, Hp in H1 by done. congruence.
    + by apply (parse_param_keeps_rate _ _ param).
Qed.

(** *** Numerals *)

Lemma is_digit_facts (c : ascii) :
  is_digit c = true ->
  digit_of c = Some (Z.of_N (code c) - 48) /\
  isspace c = false /\ isspace_int c = false /\
  Ascii.eqb c ";" = false /\ Ascii.eqb c "_" = false.
Proof.
  ascii_cases c; intros H; vm_compute in H; try discriminate H;
    repeat split; reflexivity.
Qed.

Lemma digits_value_all_digits (s : string) (acc : Z) (after : bool) :
  all_digits s = true -> s <> EmptyString \/ after = true ->
  digits_value acc after s
  = Some (acc * 10 ^ Z.of_nat (String.length s) + decimal_value s).
Proof.
  revert acc after. induction s as [|c s IH]; intros acc after Hd Hne.
  - destruct Hne as [ | -> ]; [done|]. cbn. f_equal. lia.
  - cbn [all_digits] in Hd. apply andb_prop in Hd as [Hc Hs].
    destruct (is_digit_facts c Hc) as (Hdig & _).
    cbn [digits_value]. rewrite Hdig.
    rewrite IH by auto. f_equal.
    cbn [String.length decimal_value].
    rewrite Nat2Z.inj_succ, Z.pow_succ_r by lia. lia.
Qed.

Lemma rstrip_with_cons (sp : ascii -> bool) (c : ascii) (s : string) :
  s <> EmptyString -> rstrip_with sp s = s ->
  rstrip_with sp (String c s) = String c s.
Proof. intros Hne Hs. cbn [rstrip_with]. rewrite Hs. by destruct s. Qed.

Lemma rstrip_with_digits (sp : ascii -> bool) (ds : string) :
  (forall c, is_digit c = true -> sp c = false) ->
  all_digits ds = true -> rstrip_with sp ds = ds.
Proof.
  intros Hsp. induction ds as [|c ds IH]; [done|].
  cbn [all_digits]. intros [Hc Hs]%andb_prop.
  cbn [rstrip_with]. rewrite IH by done.
  destruct ds; [by rewrite Hsp|done].
Qed.

Lemma strip_with_digits (sp : ascii -> bool) (ds : string) :
  (forall c, is_digit c = true -> sp c = false) ->
  all_digits ds = true -> strip_with sp ds = ds.
Proof.
  intros Hsp Hd. unfold strip_with.
  destruct ds as [|c ds]; [done|].
  pose proof Hd as Hd'. cbn [all_digits] in Hd'.
  apply andb_prop in Hd' as [Hc _].
  cbn [lstrip_with]. rewrite (Hsp c Hc). by apply rstrip_with_digits.
Qed.

Lemma decimal_value_nonneg (ds : string) :
  all_digits ds = true -> 0 <= decimal_value ds.
Proof.
  induction ds as [|c ds IH]; [done|].
  cbn [all_digits decimal_value]. intros [Hc Hs]%andb_prop.
  specialize (IH Hs).
  assert (0 <= Z.of_N (code c) - 48).
  { unfold is_digit in Hc. apply andb_prop in Hc as [Hlo _].
    apply N.leb_le in Hlo. lia. }
  assert (0 <= 10 ^ Z.of_nat (String.length ds)) by (apply Z.pow_nonneg; lia).
  nia.
Qed.

(** A numeral is at least its leading digit times the power of ten of
    its position. *)
Lemma decimal_value_leading (c : ascii) (ds : string) :
  is_digit c = true -> all_digits ds = true ->
  (Z.of_N (code c) - 48) * 10 ^ Z.of_nat (String.length ds)
  <= decimal_value (String c ds).
Proof.
  intros _ Hd. cbn [decimal_value].
  pose proof (decimal_value_nonneg ds Hd). lia.
Qed.

Lemma count_digits_all_digits (ds : string) :
  all_digits ds = true -> count_digits ds = String.length ds.
Proof.
  induction ds as [|c ds IH]; [done|].
  cbn [all_digits]. intros [Hc Hs]%andb_prop.
  destruct (is_digit_facts c Hc) as (Hdig & _).
  cbn [count_digits String.length]. rewrite Hdig. by rewrite IH.
Qed.

(** What [int] does with a signed numeral, before the digit limit is
    looked at. *)
Lemma int_signed_digits_limit (sign ds : string) :
  is_sign sign -> all_digits ds = true -> ds <> EmptyString ->
  int (sign ++ ds)
  = if (String.length ds <=? int_max_str_digits)%nat
    then Ok (signed_value sign ds) else Raise ValueError.
Proof.
  intros Hsign Hd Hne.
  pose proof (digits_value_all_digits ds 0 false Hd (or_introl Hne)) as Hv.
  rewrite Z.mul_0_l, Z.add_0_l in Hv.
  pose proof (count_digits_all_digits ds Hd) as Hcount.
  assert (Hr : rstrip_with isspace_int ds = ds)
    by (apply rstrip_with_digits; [apply is_digit_facts|done]).
  destruct Hsign as [-> | [-> | ->]].
  - change ("" ++ ds)%string with ds. unfold int.
    rewrite strip_with_digits by (done || apply is_digit_facts).
    rewrite Hcount.
    destruct ds as [|c r]; [done|].
    cbn [all_digits] in Hd. apply andb_prop in Hd as [Hc _].
    revert Hv. generalize (digits_value 0 false (String c r)). intros o ->.
    ascii_cases c; vm_compute in Hc; try discriminate Hc; reflexivity.
  - unfold int, strip_with. change ("+" ++ ds)%string with (String "+" ds).
    cbn [lstrip_with]. change (isspace_int "+") with false. cbv iota.
    rewrite rstrip_with_cons by done.
    cbv iota beta. rewrite Hv.
    change (count_digits (String "+" ds)) with (count_digits ds).
    rewrite Hcount. reflexivity.
  - unfold int, strip_with. change ("-" ++ ds)%string with (String "-" ds).
    cbn [lstrip_with]. change (isspace_int "-") with false. cbv iota.
    rewrite rstrip_with_cons by done.
    cbv iota beta. rewrite Hv.
    change (count_digits (String "-" ds)) with (count_digits ds).
    rewrite Hcount. reflexivity.
Qed.

(** [int] accepts a signed numeral of at most [int_max_str_digits]
    digits ... *)
Lemma int_signed_digits (sign ds : string) :
  is_sign sign -> all_digits ds = true -> ds <> EmptyString ->
  (String.length ds <= int_max_str_digits)%nat ->
  int (sign ++ ds) = Ok (signed_value sign ds).
Proof.
  intros Hsign Hd Hne Hlen. rewrite int_signed_digits_limit by done.
  by rewrite (proj2 (Nat.leb_le _ _) Hlen).
Qed.

(** ... and raises [ValueError] on a longer one. *)
Lemma int_too_many_digits (sign ds : string) :
  is_sign sign -> all_digits ds = true ->
  (int_max_str_digits < String.length ds)%nat ->
  int (sign ++ ds) = Raise ValueError.
Proof.
  intros Hsign Hd Hlen.
  assert (Hne : ds <> EmptyString).
  { intros ->. cbn [String.length] in Hlen. lia. }
  rewrite int_signed_digits_limit by done.
  by rewrite (proj2 (Nat.leb_gt _ _) Hlen).
Qed.

Lemma split_nonempty (sep : ascii) (m : option nat) (s : string) :
  exists h t, split sep m s = h :: t.
Proof.
  revert m. induction s as [|c s IH]; intros m; cbn [split]; [by eauto|].
  destruct (_ && _); [by eauto|].
  destruct (IH m) as (h & t & ->). by eauto.
Qed.

Lemma split_app_sep (sep : ascii) (s1 s2 : string) :
  split sep None (s1 ++ String sep s2)
  = split sep None s1 ++ split sep None s2.
Proof.
  induction s1 as [|c s1 IH].
  - change (EmptyString ++ String sep s2)%string with (String sep s2).
    cbn [split]. rewrite Ascii.eqb_refl. reflexivity.
  - change (String c s1 ++ String sep s2)%string
      with (String c (s1 ++ String sep s2)).
    cbn [split]. change (Nat.pred <$> None) with (@None nat). rewrite IH.
    destruct (_ && _); [reflexivity|].
    by destruct (split_nonempty sep None s1) as (h & t & ->).
Qed.

Lemma split_digits (ds : string) :
  all_digits ds = true -> split ";" None ds = [ds].
Proof.
  induction ds as [|c ds IH]; [done|].
  cbn [all_digits]. intros [Hc Hs]%andb_prop.
  destruct (is_digit_facts c Hc) as (_ & _ & _ & Hsemi & _).
  cbn [split]. rewrite Hsemi, IH by done. done.
Qed.

Lemma parse_params_app (l1 l2 : list string) (acc : AudioParams) :
  parse_params acc (l1 ++ l2)
  = (a <- parse_params acc l1 ;; parse_params a l2)%py.
Proof.
  revert acc. induction l1 as [|x l1 IH]; intros acc; [done|].
  cbn [app parse_params].
  destruct (parse_param acc x); cbn [bind]; [apply IH|done].
Qed.

Lemma prefix_append (p s : string) : String.prefix p (p ++ s) = true.
Proof.
  induction p as [|a p IH].
  - by destruct s.
  - change (String a p ++ s)%string with (String a (p ++ s)).
    cbn [String.prefix]. by destruct (ascii_dec a a).
Qed.

(** "rate=" followed by a signed numeral is one parameter of the
    descriptor, a rate parameter, and its value is the numeral. *)
Lemma rate_param_signed (sign ds : string) :
  is_sign sign -> all_digits ds = true -> ds <> EmptyString ->
  is_rate_param ("rate=" ++ sign ++ ds) = true
  /\ rate_text ("rate=" ++ sign ++ ds) = (sign ++ ds)%string
  /\ split ";" None ("rate=" ++ sign ++ ds) = ["rate=" ++ sign ++ ds]%string.
Proof.
  intros Hsign Hd Hne.
  assert (Hr : rstrip_with isspace ds = ds)
    by (apply rstrip_with_digits; [apply is_digit_facts|done]).
  assert (Hstrip : strip ("rate=" ++ sign ++ ds) = ("rate=" ++ sign ++ ds)%string).
  { unfold strip, strip_with.
    destruct Hsign as [-> | [-> | ->]].
    - change ("rate=" ++ "" ++ ds)%string
        with (String "r" (String "a" (String "t" (String "e" (String "=" ds))))).
      cbn [lstrip_with]. change (isspace "r") with false. cbv iota.
      repeat (apply rstrip_with_cons; [done|]); exact Hr.
    - change ("rate=" ++ "+" ++ ds)%string
        with (String "r" (String "a" (String "t" (String "e"
               (String "=" (String "+" ds)))))).
      cbn [lstrip_with]. change (isspace "r") with false. cbv iota.
      repeat (apply rstrip_with_cons; [done|]); exact Hr.
    - change ("rate=" ++ "-" ++ ds)%string
        with (String "r" (String "a" (String "t" (String "e"
               (String "=" (String "-" ds)))))).
      cbn [lstrip_with]. change (isspace "r") with false. cbv iota.
      repeat (apply rstrip_with_cons; [done|]); exact Hr. }
  assert (Hrate : is_rate_param ("rate=" ++ sign ++ ds) = true).
  { unfold is_rate_param, startswith. rewrite Hstrip.
    change ("rate=" ++ sign ++ ds)%string
      with (String "r" (String "a" (String "t" (String "e"
              (String "=" (sign ++ ds)))))).
    cbn [lower].
    change (lower_char "r") with "r"%char. change (lower_char "a") with "a"%char.
    change (lower_char "t") with "t"%char. change (lower_char "e") with "e"%char.
    change (lower_char "=") with "="%char.
    apply (prefix_append "rate="). }
  assert (Htext : rate_text ("rate=" ++ sign ++ ds) = (sign ++ ds)%string).
  { unfold rate_text. rewrite Hstrip.
    change ("rate=" ++ sign ++ ds)%string
      with (String "r" (String "a" (String "t" (String "e"
              (String "=" (sign ++ ds)))))).
    cbn [String.length Nat.sub String.substring].
    by rewrite Nat.sub_0_r, substring_all. }
  split; [done|]. split; [done|].
  - change ("rate=" ++ sign ++ ds)%string
      with (String "r" (String "a" (String "t" (String "e"
              (String "=" (sign ++ ds)))))).
    cbn [split]. change (Ascii.eqb "r" ";") with false.
    change (Ascii.eqb "a" ";") with false. change (Ascii.eqb "t" ";") with false.
    change (Ascii.eqb "e" ";") with false. change (Ascii.eqb "=" ";") with false.
    cbn [andb].
    assert (Hs : split ";" None (sign ++ ds) = [sign ++ ds]%string).
    { destruct Hsign as [-> | [-> | ->]].
      - by apply split_digits.
      - change ("+" ++ ds)%string with (String "+" ds). cbn [split].
        change (Ascii.eqb "+" ";") with false. cbn [andb].
        by rewrite split_digits.
      - change ("-" ++ ds)%string with (String "-" ds). cbn [split].
        change (Ascii.eqb "-" ";") with false. cbn [andb].
        by rewrite split_digits. }
    by rewrite Hs.
Qed.

(** The loop body on such a parameter: the numeral becomes the rate when
    it has at most [int_max_str_digits] digits, and the rate stays as it
    was when it has more. *)
Lemma parse_param_signed_rate (acc : AudioParams) (sign ds : string) :
  is_sign sign -> all_digits ds = true -> ds <> EmptyString ->
  (String.length ds <= int_max_str_digits)%nat ->
  parse_param acc ("rate=" ++ sign ++ ds)
  = Ok {| bits_per_sample := bits_per_sample acc;
          rate := signed_value sign ds |}.
Proof.
  intros Hsign Hd Hne Hlen.
  destruct (rate_param_signed sign ds Hsign Hd Hne) as (Hrate & Htext & _).
  rewrite parse_param_rate by done.
  by rewrite Htext, int_signed_digits.
Qed.

Lemma parse_param_long_rate (acc : AudioParams) (sign ds : string) :
  is_sign sign -> all_digits ds = true ->
  (int_max_str_digits < String.length ds)%nat ->
  parse_param acc ("rate=" ++ sign ++ ds) = Ok acc.
Proof.
  intros Hsign Hd Hlen.
  assert (Hne : ds <> EmptyString).
  { intros ->. cbn [String.length] in Hlen. lia. }
  destruct (rate_param_signed sign ds Hsign Hd Hne) as (Hrate & Htext & _).
  rewrite parse_param_rate by done.
  by rewrite Htext, int_too_many_digits.
Qed.

(** C3: descriptor parsing maps "audio/L16;rate=24000" to 16 bits and
    rate 24000 and "audio/L24;rate=48000" to 24 bits and rate 48000; a
    descriptor none of whose parameters is a rate or a bits parameter
    gives the defaults, 16 bits and rate 24000; and a descriptor whose
    rate parameters all have a value [int] rejects, such as "rate=abc",
    returns (it does not raise) with the default rate 24000. *)
Theorem parse_audio_mime_type_examples (self : BusinessIdeaAgent) :
  _parse_audio_mime_type self "audio/L16;rate=24000"
    = Ok {| bits_per_sample := 16; rate := 24000 |} /\
  _parse_audio_mime_type self "audio/L24;rate=48000"
    = Ok {| bits_per_sample := 24; rate := 48000 |} /\
  (forall mime_type : string,
     Forall (fun param => is_rate_param param = false
                          /\ is_bits_param param = false)
       (split ";" None mime_type) ->
     _parse_audio_mime_type self mime_type
       = Ok {| bits_per_sample := 16; rate := 24000 |}) /\
  _parse_audio_mime_type self "rate=abc"
    = Ok {| bits_per_sample := 16; rate := 24000 |} /\
  (forall mime_type : string,
     Forall (fun param => is_rate_param param = true ->
                          int (rate_text param) = Raise ValueError)
       (split ";" None mime_type) ->
     exists p, _parse_audio_mime_type self mime_type = Ok p
               /\ rate p = 24000).
Proof.
  split; [by vm_compute|]. split; [by vm_compute|].
  split; [|split; [by vm_compute|]].
  - intros mime_type H. by apply parse_params_other.
  - intros mime_type H.
    destruct (parse_audio_mime_type_total self mime_type) as [p Hp].
    exists p. split; [done|].
    by apply (parse_params_unparseable_rate _ _ _ H Hp).
Qed.

Lemma parse_audio_mime_type_examples_witness :
  _parse_audio_mime_type (agent_with (Some "key") None) "audio/mpeg;codec=mp3"
    = Ok {| bits_per_sample := 16; rate := 24000 |} /\
  exists p,
    _parse_audio_mime_type (agent_with (Some "key") None) "audio/L24;rate=abc"
      = Ok p /\ rate p = 24000.
Proof.
  destruct (parse_audio_mime_type_examples (agent_with (Some "key") None))
    as (_ & _ & Hdefaults & _ & Hrate).
  split.
  - apply Hdefaults. repeat constructor.
  - apply Hrate. repeat constructor; vm_compute; congruence.
Defined.

(** C10 (amended): descriptor parsing is total: on every string it
    returns the two parameters and raises nothing.  A parameter "rate="
    followed by an optional sign and at least one and at most 4300
    decimal digits ([int_max_str_digits], the interpreter's limit) sets
    the rate to the number written, zero and negative numbers included:
    so when it is the whole descriptor, and so wherever it stands among
    the parameters of a descriptor, as long as [int] rejects the value of
    every rate parameter after it (the last accepted one wins).  With
    more digits than the limit the numeral is rejected and the default
    rate stays. *)
Theorem parse_audio_mime_type_total_signed (self : BusinessIdeaAgent) :
  (forall mime_type : string,
     exists p, _parse_audio_mime_type self mime_type = Ok p) /\
  (forall sign ds : string,
     is_sign sign -> all_digits ds = true -> ds <> EmptyString ->
     (String.length ds <= int_max_str_digits)%nat ->
     _parse_audio_mime_type self ("rate=" ++ sign ++ ds)
       = Ok {| bits_per_sample := 16; rate := signed_value sign ds |}) /\
  (forall (mime_type : string) (before after : list string)
          (sign ds : string),
     is_sign sign -> all_digits ds = true -> ds <> EmptyString ->
     (String.length ds <= int_max_str_digits)%nat ->
     split ";" None mime_type
       = before ++ ("rate=" ++ sign ++ ds)%string :: after ->
     Forall (fun param => is_rate_param param = true ->
                          int (rate_text param) = Raise ValueError) after ->
     exists p, _parse_audio_mime_type self mime_type = Ok p
               /\ rate p = signed_value sign ds) /\
  (forall sign ds : string,
     is_sign sign -> all_digits ds = true ->
     (int_max_str_digits < String.length ds)%nat ->
     _parse_audio_mime_type self ("rate=" ++ sign ++ ds)
       = Ok {| bits_per_sample := 16; rate := 24000 |}).
Proof.
  split; [apply parse_audio_mime_type_total|].
  split; [|split].
  - intros sign ds Hsign Hd Hne Hlen. unfold _parse_audio_mime_type.
    destruct (rate_param_signed sign ds Hsign Hd Hne) as (_ & _ & ->).
    cbn [parse_params]. by rewrite parse_param_signed_rate.
  - intros mime_type before after sign ds Hsign Hd Hne Hlen Hsplit Hafter.
    unfold _parse_audio_mime_type. rewrite Hsplit, parse_params_app.
    destruct (parse_params_total before
                {| bits_per_sample := 16; rate := 24000 |}) as [acc ->].
    cbn [bind parse_params]. rewrite parse_param_signed_rate by done.
    cbn [bind].
    destruct (parse_params_total after
                {| bits_per_sample := bits_per_sample acc;
                   rate := signed_value sign ds |}) as [p Hp].
    exists p. split; [done|].
    by rewrite (parse_params_unparseable_rate _ _ _ Hafter Hp).
  - intros sign ds Hsign Hd Hlen. unfold _parse_audio_mime_type.
    assert (Hne : ds <> EmptyString).
    { intros ->. cbn [String.length] in Hlen. lia. }
    destruct (rate_param_signed sign ds Hsign Hd Hne) as (_ & _ & ->).
    cbn [parse_params]. by rewrite parse_param_long_rate.
Qed.

Lemma parse_audio_mime_type_total_signed_witness :
  _parse_audio_mime_type (agent_with (Some "key") None) "rate=-5"
    = Ok {| bits_per_sample := 16; rate := -5 |} /\
  (exists p,
     _parse_audio_mime_type (agent_with (Some "key") None)
       "audio/L24;rate=-5;codec=pcm;rate=abc" = Ok p /\ rate p = -5) /\
  _parse_audio_mime_type (agent_with (Some "key") None)
    ("rate=" ++ repeat_char "1" 4301)
    = Ok {| bits_per_sample := 16; rate := 24000 |}.
Proof.
  destruct (parse_audio_mime_type_total_signed (agent_with (Some "key") None))
    as (_ & Hwhole & Hany & Hlong).
  split; [|split].
  - apply (Hwhole "-" "5"); [by right; right | done | done |].
    apply Nat.leb_le. reflexivity.
  - apply (Hany _ ["audio/L24"] ["codec=pcm"; "rate=abc"] "-" "5");
      [by right; right | done | done | | reflexivity |].
    + apply Nat.leb_le. reflexivity.
    + repeat constructor; vm_compute; congruence.
  - apply (Hlong "" (repeat_char "1" 4301)); [by left | by vm_compute |].
    apply Nat.ltb_lt. by vm_compute.
Defined.

(** C10 does not hold for every string of digits: a numeral of 4301
    digits after "rate=" is rejected by [int], and the parser answers the
    default rate, which is not the number written. *)
Lemma parse_audio_mime_type_total_signed_counterexample :
  all_digits (repeat_char "1" 4301) = true /\
  _parse_audio_mime_type (agent_with (Some "key") None)
    ("rate=" ++ repeat_char "1" 4301)
    = Ok {| bits_per_sample := 16; rate := 24000 |} /\
  signed_value "" (repeat_char "1" 4301) <> 24000.
Proof.
  split; [by vm_compute|]. split; [by vm_compute|].
  unfold signed_value. cbn [String.eqb].
  change (repeat_char "1" 4301) with (String "1" (repeat_char "1" 4300)).
  pose proof (decimal_value_leading "1" (repeat_char "1" 4300)
                eq_refl ltac:(by vm_compute)) as H.
  change (Z.of_N (code "1") - 48) with 1 in H.
  replace (Z.of_nat (String.length (repeat_char "1" 4300))) with 4300 in H
    by (by vm_compute).
  pose proof (Z.pow_le_mono_r 10 5 4300 eq_refl ltac:(discriminate)) as Hpow.
  change (10 ^ 5) with 100000 in Hpow.
  revert H Hpow. generalize (10 ^ 4300).
  generalize (decimal_value (String "1" (repeat_char "1" 4300))). lia.
Qed.

(** C1 does not hold for every descriptor: on "audio/L16;rate=-5" the
    sample rate is negative, [struct.pack] raises, and the encoder
    returns no bytes at all. *)
Lemma convert_to_wav_sizes_counterexample :
  ~ exists header : bytes,
      _convert_to_wav (agent_with (Some "key") None) [x01; x02]
        "audio/L16;rate=-5" = Ok (header ++ [x01; x02])
      /\ length header = 44%nat.
Proof. intros (header & H & _). vm_compute in H. discriminate H. Qed.

Lemma convert_to_wav_sizes_witness :
  exists header : bytes,
    _convert_to_wav (agent_with (Some "key") None) [x01; x02]
      "audio/L16;codec=pcm;rate=24000" = Ok (header ++ [x01; x02]) /\
    length header = 44%nat /\
    field 4 4 (header ++ [x01; x02]) = 38 /\
    field 40 4 (header ++ [x01; x02]) = 2.
Proof.
  apply (convert_to_wav_sizes (agent_with (Some "key") None) [x01; x02]
           "audio/L16;codec=pcm;rate=24000"
           {| bits_per_sample := 16; rate := 24000 |}).
  - reflexivity.
  - repeat split; by vm_compute.
Defined.

Lemma convert_to_wav_format_fields_witness :
  exists out : bytes,
    _convert_to_wav (agent_with (Some "key") None) [x01; x02]
      "audio/L16;codec=pcm;rate=24000" = Ok out /\
    take 4 out = b_RIFF /\
    take 4 (drop 8 out) = b_WAVE /\
    take 4 (drop 12 out) = b_fmt /\
    field 16 4 out = 16 /\
    field 20 2 out = 1 /\
    field 22 2 out = 1 /\
    field 24 4 out = 24000 /\
    field 28 4 out = 48000 /\
    field 32 2 out = 2 /\
    field 34 2 out = 16 /\
    take 4 (drop 36 out) = b_data.
Proof.
  apply (convert_to_wav_format_fields (agent_with (Some "key") None)
           [x01; x02] "audio/L16;codec=pcm;rate=24000"
           {| bits_per_sample := 16; rate := 24000 |}).
  - reflexivity.
  - repeat split; by vm_compute.
Defined.

(** ** Computations with effects *)

Lemma bindM_ok {A B} (m : M A) (k : A -> M B) (w w' : World) (b : B) :
  bindM m k w = (Ok b, w') ->
  exists a w1, m w = (Ok a, w1) /\ k a w1 = (Ok b, w').
Proof.
  unfold bindM. destruct (m w) as [[a|e] w1]; [by eauto|discriminate].
Qed.

(** A [try] whose [except] clause raises the exception again. *)
Lemma try_catch_raise {A} (body : M A) (w : World) :
  try_catch body (fun e => raise e) w = body w.
Proof. unfold try_catch, raise. by destruct (body w) as [[a|e] w1]. Qed.

Lemma parent_joinpath (p : Path) (name : string) : parent (joinpath p name) = p.
Proof. apply removelast_last. Qed.


(** ** The speech stream *)

Lemma consume_stream_first (svc : Services) (self : BusinessIdeaAgent)
    (audio_filename : string) (pre rest : list (result Chunk)) (chunk : Chunk)
    (blob : Blob) :
  Forall no_audio pre -> chunk_inline_data chunk = Some blob ->
  consume_stream svc self audio_filename (pre ++ Ok chunk :: rest)
  = consume_stream svc self audio_filename [Ok chunk].
Proof.
  intros Hpre Hchunk. induction Hpre as [|r pre (c & -> & Hc) _ IH].
  - cbn [app consume_stream]. by rewrite Hchunk.
  - cbn [app consume_stream]. by rewrite Hc.
Qed.

Lemma generate_audio_feedback_unfold (svc : Services) (self : BusinessIdeaAgent)
    (analysis_text voice_style : string) (w : World) :
  generate_audio_feedback svc self analysis_text voice_style w
  = (d <- now ;;
     log_call (GenerateContentStream tts_model (tts_prompt analysis_text voice_style)) ;;;
     consume_stream svc self
       ("business_analysis_" ++ strftime_stamp d ++ ".wav")
       (generate_content_stream svc tts_model (tts_prompt analysis_text voice_style))) w.
Proof. unfold generate_audio_feedback. by rewrite try_catch_raise. Qed.

(** The loop body on the first chunk with inline data, for an extension
    and a buffer as [consume_stream] has them before it saves the file. *)
Lemma save_first_chunk (svc : Services) (self : BusinessIdeaAgent)
    (analysis_text voice_style : string) (pre rest : list (result Chunk))
    (chunk : Chunk) (blob : Blob) (w : World) :
  generate_content_stream svc tts_model (tts_prompt analysis_text voice_style)
    = pre ++ Ok chunk :: rest ->
  Forall no_audio pre -> chunk_inline_data chunk = Some blob ->
  let d := clock w (clock_reads w) in
  let w2 :=
    {| files := files w; dirs := dirs w; clock := clock w;
       clock_reads := S (clock_reads w);
       net := GenerateContentStream tts_model
                (tts_prompt analysis_text voice_style) :: net w |} in
  generate_audio_feedback svc self analysis_text voice_style w
  = match guess_extension svc (mime_type blob) with
    | Some ext =>
        (write_file (audio_file_path self d ext) (Binary (data blob)) ;;;
         ret (audio_file_path self d ext)) w2
    | None =>
        match _convert_to_wav self (data blob) (mime_type blob) with
        | Ok wav =>
            (write_file (audio_file_path self d ".wav") (Binary wav) ;;;
             ret (audio_file_path self d ".wav")) w2
        | Raise e => (Raise e, w2)
        end
    end.
Proof.
  intros Hstream Hpre Hchunk d w2.
  rewrite generate_audio_feedback_unfold.
  unfold bindM at 1. unfold now. fold d.
  unfold bindM at 1. unfold log_call. cbn [files dirs clock clock_reads net].
  fold w2.
  rewrite Hstream, (consume_stream_first _ _ _ _ _ _ _ Hpre Hchunk).
  cbn [consume_stream]. rewrite Hchunk.
  destruct (guess_extension svc (mime_type blob)) as [ext|]; [reflexivity|].
  unfold bindM at 1. unfold bindM at 1. unfold lift.
  by destruct (_convert_to_wav self (data blob) (mime_type blob)).
Qed.

Lemma write_file_ret_ok (p : Path) (c : content) (w : World) :
  is_dir p w = false -> is_dir (parent p) w = true ->
  (write_file p c ;;; ret p) w
  = (Ok p, set_files (<[p := c]> (files w)) w).
Proof. intros Hp Hd. unfold bindM, write_file, ret. by rewrite Hp, Hd. Qed.

Lemma convert_to_wav_header (self : BusinessIdeaAgent) (audio_data out : bytes)
    (mime_type : string) :
  _convert_to_wav self audio_data mime_type = Ok out ->
  exists header, out = header ++ audio_data /\ length header = 44%nat.
Proof.
  intros H.
  destruct (parse_audio_mime_type_total self mime_type) as [p Hp].
  destruct (decide (header_fits p (length audio_data))) as [Hfits|Hfits].
  - rewrite (convert_to_wav_ok _ _ _ _ Hp Hfits) in H.
    match type of H with Ok (?h ++ _) = _ => exists h end.
    split; [congruence|]. by rewrite !length_app, !length_pack_le.
  - rewrite (convert_to_wav_raises _ _ _ _ Hp Hfits) in H. discriminate H.
Qed.

Lemma convert_to_wav_changes (self : BusinessIdeaAgent) (audio_data : bytes)
    (mime_type : string) :
  _convert_to_wav self audio_data mime_type <> Ok audio_data.
Proof.
  intros H. apply convert_to_wav_header in H as (header & H & Hlen).
  apply (f_equal length) in H. rewrite length_app in H. lia.
Qed.

(** C5: in [generate_audio_feedback], on the first chunk of the stream
    that holds inline data, the WAV encoder is applied if and only if
    [guess_extension] knows no extension for the declared content type.
    With an extension, the file written holds the received bytes
    unmodified (and these are not what the encoder would return); with
    none, it holds the encoder's output under the extension ".wav", and
    when the encoder raises nothing is written. *)
Theorem generate_audio_feedback_encoder (svc : Services)
    (self : BusinessIdeaAgent) (analysis_text voice_style : string)
    (pre rest : list (result Chunk)) (chunk : Chunk) (blob : Blob)
    (w : World) :
  generate_content_stream svc tts_model (tts_prompt analysis_text voice_style)
    = pre ++ Ok chunk :: rest ->
  Forall no_audio pre -> chunk_inline_data chunk = Some blob ->
  is_dir (output_dir self) w = true ->
  let d := clock w (clock_reads w) in
  match guess_extension svc (mime_type blob) with
  | Some ext =>
      is_dir (audio_file_path self d ext) w = false ->
      exists w',
        generate_audio_feedback svc self analysis_text voice_style w
          = (Ok (audio_file_path self d ext), w')
        /\ files w'
           = <[audio_file_path self d ext := Binary (data blob)]> (files w)
        /\ _convert_to_wav self (data blob) (mime_type blob)
           <> Ok (data blob)
  | None =>
      is_dir (audio_file_path self d ".wav") w = false ->
      exists w',
        match _convert_to_wav self (data blob) (mime_type blob) with
        | Ok wav =>
            generate_audio_feedback svc self analysis_text voice_style w
              = (Ok (audio_file_path self d ".wav"), w')
            /\ files w'
               = <[audio_file_path self d ".wav" := Binary wav]> (files w)
        | Raise e =>
            generate_audio_feedback svc self analysis_text voice_style w
              = (Raise e, w')
            /\ files w' = files w
        end
  end.
Proof.
  intros Hstream Hpre Hchunk Hout d.
  rewrite (save_first_chunk _ _ _ _ _ _ _ _ w Hstream Hpre Hchunk). fold d.
  destruct (guess_extension svc (mime_type blob)) as [ext|].
  - intros Hfile. rewrite write_file_ret_ok; [|done|by unfold audio_file_path; rewrite parent_joinpath].
    eexists. split; [reflexivity|]. split; [reflexivity|].
    apply convert_to_wav_changes.
  - intros Hfile.
    destruct (_convert_to_wav self (data blob) (mime_type blob)) as [wav|e].
    + rewrite write_file_ret_ok; [|done|by unfold audio_file_path; rewrite parent_joinpath].
      eexists. split; reflexivity.
    + eexists. split; reflexivity.
Qed.

Lemma generate_audio_feedback_encoder_witness :
  (exists w',
     generate_audio_feedback (example_services example_stream)
       (agent_with (Some "key") None) "Looks good." "upbeat" example_world
     = (Ok ["agent"; "feedback"; "business_analysis_20250101_120000.wav"], w')
     /\ files w'
        = <[ ["agent"; "feedback"; "business_analysis_20250101_120000.wav"]
             := Binary
                  [x52; x49; x46; x46; x26; x00; x00; x00; x57; x41; x56; x45;
                   x66; x6d; x74; x20; x10; x00; x00; x00; x01; x00; x01; x00;
                   xc0; x5d; x00; x00; x80; xbb; x00; x00; x02; x00; x10; x00;
                   x64; x61; x74; x61; x02; x00; x00; x00; x01; x02] ]>
            (files example_world)) /\
  (exists w',
     generate_audio_feedback
       (example_services [Ok (audio_chunk [x03] "audio/mpeg")])
       (agent_with (Some "key") None) "Looks good." "upbeat" example_world
     = (Ok ["agent"; "feedback"; "business_analysis_20250101_120000.mp3"], w')
     /\ files w'
        = <[ ["agent"; "feedback"; "business_analysis_20250101_120000.mp3"]
             := Binary [x03] ]> (files example_world)
     /\ _convert_to_wav (agent_with (Some "key") None) [x03] "audio/mpeg"
        <> Ok [x03]).
Proof.
  split.
  - apply (generate_audio_feedback_encoder (example_services example_stream)
             (agent_with (Some "key") None) "Looks good." "upbeat"
             [Ok {| candidates := [] |}]
             [Ok (audio_chunk [x03] "audio/mpeg");
              Raise (Exception "connection lost")]
             (audio_chunk [x01; x02] "audio/L16;codec=pcm;rate=24000")
             {| data := [x01; x02];
                mime_type := "audio/L16;codec=pcm;rate=24000" |}
             example_world); try reflexivity.
    repeat constructor. eexists. split; reflexivity.
  - apply (generate_audio_feedback_encoder
             (example_services [Ok (audio_chunk [x03] "audio/mpeg")])
             (agent_with (Some "key") None) "Looks good." "upbeat"
             [] [] (audio_chunk [x03] "audio/mpeg")
             {| data := [x03]; mime_type := "audio/mpeg" |}
             example_world); try reflexivity.
    constructor.
Defined.



(** ** Effects of the steps *)

Lemma append_assoc (s1 s2 s3 : string) :
  ((s1 ++ s2) ++ s3 = s1 ++ s2 ++ s3)%string.
Proof.
  induction s1 as [|c s1 IH]; [reflexivity|].
  change (String c ((s1 ++ s2) ++ s3) = String c (s1 ++ s2 ++ s3))%string.
  by rewrite IH.
Qed.

Lemma world_after_same (w : World) :
  world_after w (files w) (dirs w) 0 [] = w.
Proof. by destruct w. Qed.

Lemma write_file_ok (p : Path) (c : content) (w w' : World) :
  write_file p c w = (Ok tt, w') ->
  w' = world_after w (<[p := c]> (files w)) (dirs w) 0 [].
Proof.
  unfold write_file. destruct (is_dir p w); [discriminate|].
  destruct (is_dir (parent p) w); [|discriminate]. by intros [= <-].
Qed.

Lemma mkdir_exist_ok_ok (p : Path) (w w' : World) :
  mkdir_exist_ok p w = (Ok tt, w') -> p <> [] ->
  w' = world_after w (files w) ({[p]} ∪ dirs w) 0 [].
Proof.
  unfold mkdir_exist_ok, is_dir at 1. intros H Hp.
  case_bool_decide as Hd.
  - destruct Hd as [Hd|Hd]; [done|]. replace w' with w by congruence.
    rewrite (subseteq_union_1_L {[p]} (dirs w)).
    + by rewrite world_after_same.
    + by apply singleton_subseteq_l.
  - destruct (is_file p w); [discriminate|].
    destruct (is_dir (parent p) w); [|discriminate]. by injection H as <-.
Qed.

Lemma rename_file_ok (src dst : Path) (c : content) (w w' : World) :
  files w !! src = Some c ->
  rename src dst w = (Ok tt, w') ->
  w' = world_after w (<[dst := c]> (delete src (files w))) (dirs w) 0 [].
Proof.
  unfold rename. intros ->. destruct (is_dir dst w); [discriminate|].
  destruct (is_dir (parent dst) w); [|discriminate]. by intros [= <-].
Qed.

Lemma analyze_business_idea_ok (svc : Services) (self : BusinessIdeaAgent)
    (business_idea analysis : string) (w w' : World) :
  analyze_business_idea svc self business_idea w = (Ok analysis, w') ->
  analysis <> EmptyString /\
  exists system_prompt,
    generate_content svc llm_model (analysis_prompt system_prompt business_idea)
      = Ok (Some analysis) /\
    w' = world_after w (files w) (dirs w) 0
           [GenerateContent llm_model
              (analysis_prompt system_prompt business_idea)].
Proof.
  unfold analyze_business_idea. intros H.
  apply bindM_ok in H as (system_prompt & w1 & Hload & H).
  assert (w1 = w) as ->.
  { revert Hload. unfold load_system_prompt, bindM, get.
    destruct (path_exists _ w); [|by intros [= _ <-]].
    unfold read_file. destruct (files w !! _) as [c|]; [|discriminate].
    unfold lift. destruct (text_of c); [|discriminate].
    by intros [= _ <-]. }
  rewrite try_catch_raise in H.
  unfold call_generate_content, bindM, log_call, lift in H.
  fold llm_model in H.
  destruct (generate_content svc llm_model _) as [[[|c t]|]|e] eqn:Hg;
    try discriminate H.
  injection H as <- <-. split; [done|]. by exists system_prompt.
Qed.

(** [generate_filename_suggestion] raises nothing: it makes its one call
    and answers a suggestion, "business-idea" when the provider fails or
    answers no text. *)
Lemma generate_filename_suggestion_ok (svc : Services)
    (self : BusinessIdeaAgent) (business_idea : string) (w : World) :
  exists suggestion,
    generate_filename_suggestion svc self business_idea w
    = (Ok suggestion,
       world_after w (files w) (dirs w) 0
         [GenerateContent llm_model (filename_prompt business_idea)]).
Proof.
  unfold generate_filename_suggestion, try_catch, call_generate_content,
    bindM, log_call, lift, ret.
  fold llm_model.
  destruct (generate_content svc llm_model _) as [response_text|e];
    [|by eexists].
  destruct (truthy response_text); by eexists.
Qed.

Lemma consume_stream_ok (svc : Services) (self : BusinessIdeaAgent)
    (audio_filename : string) (stream : list (result Chunk))
    (path : Path) (w w' : World) :
  consume_stream svc self audio_filename stream w = (Ok path, w') ->
  parent path = output_dir self /\
  exists payload,
    w' = world_after w (<[path := Binary payload]> (files w)) (dirs w) 0 [].
Proof.
  induction stream as [|[chunk|e] rest IH]; cbn [consume_stream];
    [discriminate| |discriminate].
  destruct (chunk_inline_data chunk) as [blob|]; [|exact IH].
  intros H. apply bindM_ok in H as ([ext buffer] & w1 & Hconv & H).
  assert (w1 = w) as ->.
  { revert Hconv. destruct (guess_extension svc (mime_type blob)).
    - by intros [= _ _ <-].
    - unfold bindM, lift. destruct (_convert_to_wav _ _ _); [|discriminate].
      by intros [= _ _ <-]. }
  apply bindM_ok in H as ([] & w2 & Hw & H). injection H as <- <-.
  split; [apply parent_joinpath|].
  exists buffer. by apply write_file_ok.
Qed.

Lemma generate_audio_feedback_ok (svc : Services) (self : BusinessIdeaAgent)
    (analysis_text voice_style : string) (path : Path) (w w' : World) :
  generate_audio_feedback svc self analysis_text voice_style w = (Ok path, w') ->
  parent path = output_dir self /\
  exists payload,
    w' = world_after w (<[path := Binary payload]> (files w)) (dirs w) 1
           [GenerateContentStream tts_model
              (tts_prompt analysis_text voice_style)].
Proof.
  rewrite generate_audio_feedback_unfold. unfold bindM at 1. unfold now.
  unfold bindM at 1. unfold log_call. intros H.
  apply consume_stream_ok in H as (Hparent & payload & ->).
  split; [done|]. by exists payload.
Qed.

Lemma generate_markdown_file_ok (svc : Services) (self : BusinessIdeaAgent)
    (analysis_text business_idea filename_base : string)
    (output_folder path : Path) (w w' : World) :
  generate_markdown_file svc self analysis_text business_idea filename_base
    output_folder w = (Ok path, w') ->
  path = joinpath output_folder (filename_base ++ ".md") /\
  w' = world_after w
         (<[path := Text (markdown_content
                            (format_date svc (clock w (clock_reads w)))
                            business_idea analysis_text)]> (files w))
         (dirs w) 1 [].
Proof.
  unfold generate_markdown_file. unfold bindM at 1. unfold now. intros H.
  apply bindM_ok in H as ([] & w1 & Hw & H). injection H as <- <-.
  split; [done|]. by apply write_file_ok in Hw as ->.
Qed.

Lemma generate_pdf_file_ok (svc : Services) (self : BusinessIdeaAgent)
    (analysis_text business_idea filename_base : string)
    (output_folder path : Path) (w w' : World) :
  generate_pdf_file svc self analysis_text business_idea filename_base
    output_folder w = (Ok path, w') ->
  path = joinpath output_folder (filename_base ++ ".pdf") /\
  exists pdf,
    render_pdf svc (format_date svc (clock w (clock_reads w)))
      business_idea analysis_text = Ok pdf /\
    w' = world_after w (<[path := Binary pdf]> (files w)) (dirs w) 1 [].
Proof.
  unfold generate_pdf_file. unfold bindM at 1. unfold now.
  unfold bindM at 1. unfold lift. cbn [clock clock_reads].
  destruct (render_pdf svc _ _ _) as [pdf|e]; [|discriminate]. intros H.
  apply bindM_ok in H as ([] & w1 & Hw & H). injection H as <- <-.
  split; [done|]. exists pdf. split; [done|].
  by apply write_file_ok in Hw as ->.
Qed.

(** [send_email_with_attachments] raises nothing and touches no file; it
    makes at most one call, a POST to the email provider, and none when
    the key is not set. *)
Lemma send_email_with_attachments_ok (svc : Services)
    (self : BusinessIdeaAgent) (analysis_text : string)
    (audio_file_path markdown_file_path pdf_file_path : Path) (w : World) :
  exists (sent : bool) (calls : list NetCall),
    send_email_with_attachments svc self analysis_text audio_file_path
      markdown_file_path pdf_file_path w
    = (Ok sent, world_after w (files w) (dirs w) 0 calls) /\
    (calls = [] /\ sent = false
     \/ truthy (resend_api_key self) = true /\
        exists body,
          calls = [HttpPost email_url
                     ("Bearer " ++ default EmptyString (resend_api_key self))
                     body]).
Proof.
  unfold send_email_with_attachments.
  destruct (truthy (resend_api_key self)) eqn:Hkey; cbn [negb].
  - unfold try_catch, bindM, read_file.
    destruct (files w !! audio_file_path) as [audio_data|];
      [|exists false, []; rewrite world_after_same; by auto].
    destruct (files w !! markdown_file_path) as [markdown_data|];
      [|exists false, []; rewrite world_after_same; by auto].
    destruct (files w !! pdf_file_path) as [pdf_data|];
      [|exists false, []; rewrite world_after_same; by auto].
    unfold log_call, lift. cbn [files dirs clock clock_reads net].
    destruct (requests_post svc _ _ _) as [status_code|e].
    + destruct (status_code =? 200); eexists _, [_];
        (split; [reflexivity|right; split; [done|by eexists]]).
    + eexists _, [_]. split; [reflexivity|right; split; [done|by eexists]].
  - exists false, []. rewrite world_after_same. by auto.
Qed.

(** A successful [process_business_idea], step by step: the output folder
    is named after the second reading of the clock and the suggestion; the
    audio file is written next to the folders and moved into the folder;
    the three documents are written; at most one email is posted; and the
    idea file, if any, is moved last. *)
Lemma process_business_idea_ok (svc : Services) (self : BusinessIdeaAgent)
    (business_idea voice_style : string) (send_email : bool)
    (input_file_path : option Path) (results : Results) (w w' : World) :
  process_business_idea svc self business_idea voice_style send_email
    input_file_path w = (Ok results, w') ->
  exists (analysis suggestion system_prompt : string) (tmp : Path)
         (payload pdf : bytes) (sent : bool) (calls : list NetCall)
         (w5 : World),
    let folder :=
      joinpath (output_dir self)
        (folder_name (clock w (1 + clock_reads w)%nat) suggestion) in
    let markdown :=
      markdown_content (format_date svc (clock w (3 + clock_reads w)%nat))
        business_idea analysis in
    parent tmp = output_dir self /\
    w5 = world_after w
           (<[text_artifact folder suggestion := Text analysis]>
              (<[pdf_artifact folder suggestion := Binary pdf]>
                 (<[markdown_artifact folder suggestion := Text markdown]>
                    (<[audio_artifact folder suggestion := Binary payload]>
                       (delete tmp
                          (<[tmp := Binary payload]> (files w)))))))
           ({[folder]} ∪ dirs w) 5
           (calls ++
            [GenerateContentStream tts_model (tts_prompt analysis voice_style);
             GenerateContent llm_model (filename_prompt business_idea);
             GenerateContent llm_model
               (analysis_prompt system_prompt business_idea)]) /\
    (calls = [] /\ sent = false
     \/ send_email = true /\ truthy (resend_api_key self) = true /\
        exists body,
          calls = [HttpPost email_url
                     ("Bearer " ++ default EmptyString (resend_api_key self))
                     body]) /\
    exists moved,
      match input_file_path with
      | Some p =>
          exists moved_path,
            move_idea_to_evaluated self p w5 = (Ok moved_path, w')
            /\ moved = Some moved_path
      | None => w' = w5 /\ moved = None
      end /\
      results =
        {| res_timestamp := clock w (clock_reads w);
           res_business_idea := business_idea;
           res_voice_style := voice_style;
           res_analysis_text := Some analysis;
           res_audio_file := Some (audio_artifact folder suggestion);
           res_email_sent := sent;
           res_markdown_file := Some (markdown_artifact folder suggestion);
           res_pdf_file := Some (pdf_artifact folder suggestion);
           res_text_file := Some (text_artifact folder suggestion);
           res_moved_to_evaluated := moved |}.
Proof.
  unfold process_business_idea. unfold bindM at 1. unfold now.
  rewrite try_catch_raise. intros H.
  apply bindM_ok in H as (analysis & w1 & Ha & H).
  apply analyze_business_idea_ok in Ha as (_ & system_prompt & _ & ->).
  apply bindM_ok in H as (suggestion & w2 & Hs & H).
  destruct (generate_filename_suggestion_ok svc self business_idea
              (world_after
                 {| files := files w; dirs := dirs w; clock := clock w;
                    clock_reads := S (clock_reads w); net := net w |}
                 (files w) (dirs w) 0
                 [GenerateContent llm_model
                    (analysis_prompt system_prompt business_idea)]))
    as (suggestion' & Hs').
  cbn [files dirs] in Hs, Hs'. rewrite Hs' in Hs. injection Hs as -> <-.
  clear Hs'.
  unfold bindM at 1 in H. unfold now in H.
  cbn [files dirs clock clock_reads net world_after] in H.
  apply bindM_ok in H as ([] & w3 & Hm & H).
  apply mkdir_exist_ok_ok in Hm as ->;
    [|unfold joinpath; by destruct (output_dir self)].
  cbn [files dirs clock clock_reads net world_after] in H.
  apply bindM_ok in H as (tmp & w4 & Hg & H).
  apply generate_audio_feedback_ok in Hg as (Htmp & payload & ->).
  cbn [files dirs clock clock_reads net world_after] in H.
  apply bindM_ok in H as ([] & w5 & Hr & H).
  apply (rename_file_ok _ _ (Binary payload)) in Hr as ->;
    [|apply lookup_insert_eq].
  cbn [files dirs clock clock_reads net world_after] in H.
  apply bindM_ok in H as (markdown_file & w6 & Hmd & H).
  apply generate_markdown_file_ok in Hmd as (-> & ->).
  cbn [files dirs clock clock_reads net world_after] in H.
  apply bindM_ok in H as (pdf_file & w7 & Hpdf & H).
  apply generate_pdf_file_ok in Hpdf as (-> & pdf & _ & ->).
  cbn [files dirs clock clock_reads net world_after] in H.
  apply bindM_ok in H as ([] & w8 & Ht & H).
  apply write_file_ok in Ht as ->.
  cbn [files dirs clock clock_reads net world_after] in H.
  apply bindM_ok in H as (sent & w9 & He & H).
  apply bindM_ok in H as (moved & w10 & Hmv & H).
  injection H as <- <-.
  match type of He with
  | _ ?w0 = _ => set (w8 := w0) in *
  end.
  assert (Hemail : exists calls,
             w9 = world_after w8 (files w8) (dirs w8) 0 calls /\
             (calls = [] /\ sent = false
              \/ send_email = true /\ truthy (resend_api_key self) = true /\
                 exists body,
                   calls = [HttpPost email_url
                              ("Bearer "
                               ++ default EmptyString (resend_api_key self))
                              body])).
  { destruct send_email.
    - match type of He with
      | send_email_with_attachments ?s ?a ?t ?p1 ?p2 ?p3 ?w0 = _ =>
          destruct (send_email_with_attachments_ok s a t p1 p2 p3 w0)
            as (sent' & calls & He' & Hcalls)
      end.
      rewrite He' in He. injection He as -> <-.
      exists calls. split; [reflexivity|].
      destruct Hcalls as [?|[? ?]]; [by left|by right].
    - injection He as <- <-. exists []. rewrite world_after_same.
      split; [reflexivity|by left]. }
  destruct Hemail as (calls & Hw9 & Hcalls).
  exists analysis, suggestion, system_prompt, tmp, payload, pdf, sent, calls, w9.
  split; [exact Htmp|]. split.
  { rewrite Hw9. subst w8. unfold world_after.
    cbn [files dirs clock clock_reads net Nat.add].
    unfold text_artifact, pdf_artifact, markdown_artifact, audio_artifact.
    rewrite !append_assoc.
    f_equal. by rewrite <- !app_assoc. }
  split; [exact Hcalls|].
  exists moved. split; [|by rewrite !append_assoc].
  destruct input_file_path as [p|].
  - apply bindM_ok in Hmv as (moved_path & w11 & Hmv & H).
    injection H as <- <-. by exists moved_path.
  - by injection Hmv as <- <-.
Qed.

(** ** An idea from the pending queue *)

Lemma artifacts_distinct (folder : Path) (suggestion : string) :
  NoDup [audio_artifact folder suggestion; markdown_artifact folder suggestion;
         pdf_artifact folder suggestion; text_artifact folder suggestion].
Proof.
  unfold audio_artifact, markdown_artifact, pdf_artifact, text_artifact,
    joinpath.
  repeat constructor; rewrite ?elem_of_cons, ?elem_of_nil;
    intros H; repeat destruct H as [H|H]; try done;
    apply app_inv_head in H; injection H as H;
    apply String.app_inj in H; discriminate H.
Qed.

Lemma contains_pending (f : string) :
  contains "pending" (str_of_path ["agent"; "user-ideas"; "pending"; f]) = true.
Proof. by vm_compute. Qed.

(** [process_business_idea] as [main] calls it, on a file of the pending
    directory: all it changes in the world when it succeeds. *)
Lemma process_pending_idea_ok (svc : Services) (env : gmap string string)
    (business_idea voice_style : string) (send_email : bool)
    (idea_file : string) (c : content) (results : Results) (w w' : World) :
  let self := agent_of_env env in
  let pending_file := joinpath (pending_dir self) idea_file in
  files w !! pending_file = Some c ->
  process_business_idea svc self business_idea voice_style send_email
    (Some pending_file) w = (Ok results, w') ->
  exists (analysis suggestion system_prompt : string) (tmp : Path)
         (payload pdf : bytes) (sent : bool) (calls : list NetCall),
    let folder :=
      joinpath (output_dir self)
        (folder_name (clock w (1 + clock_reads w)%nat) suggestion) in
    let markdown :=
      markdown_content (format_date svc (clock w (3 + clock_reads w)%nat))
        business_idea analysis in
    parent tmp = output_dir self /\
    w' = world_after w
           (<[joinpath (evaluated_dir self) idea_file := c]>
              (delete pending_file
                 (<[text_artifact folder suggestion := Text analysis]>
                    (<[pdf_artifact folder suggestion := Binary pdf]>
                       (<[markdown_artifact folder suggestion := Text markdown]>
                          (<[audio_artifact folder suggestion := Binary payload]>
                             (delete tmp
                                (<[tmp := Binary payload]> (files w)))))))))
           ({[folder]} ∪ dirs w) 5
           (calls ++
            [GenerateContentStream tts_model (tts_prompt analysis voice_style);
             GenerateContent llm_model (filename_prompt business_idea);
             GenerateContent llm_model
               (analysis_prompt system_prompt business_idea)]) /\
    (calls = [] /\ sent = false
     \/ send_email = true /\ truthy (resend_api_key self) = true /\
        exists body,
          calls = [HttpPost email_url
                     ("Bearer " ++ default EmptyString (resend_api_key self))
                     body]) /\
    results =
      {| res_timestamp := clock w (clock_reads w);
         res_business_idea := business_idea;
         res_voice_style := voice_style;
         res_analysis_text := Some analysis;
         res_audio_file := Some (audio_artifact folder suggestion);
         res_email_sent := sent;
         res_markdown_file := Some (markdown_artifact folder suggestion);
         res_pdf_file := Some (pdf_artifact folder suggestion);
         res_text_file := Some (text_artifact folder suggestion);
         res_moved_to_evaluated :=
           Some (joinpath (evaluated_dir self) idea_file) |}.
Proof.
  intros self pending_file Hfile H.
  apply process_business_idea_ok in H
    as (analysis & suggestion & system_prompt & tmp & payload & pdf & sent
        & calls & w5 & Htmp & Hw5 & Hcalls & moved & Hmove & ->).
  destruct Hmove as (moved_path & Hmove & ->).
  exists analysis, suggestion, system_prompt, tmp, payload, pdf, sent, calls.
  split; [exact Htmp|].
  assert (Hfile5 : files w5 !! pending_file = Some c).
  { rewrite Hw5. cbn [files world_after].
    rewrite !lookup_insert_ne, lookup_delete_ne, lookup_insert_ne; [done|..];
      try (by unfold text_artifact, pdf_artifact, markdown_artifact,
             audio_artifact);
      intros Heq; rewrite Heq in Htmp; discriminate Htmp. }
  revert Hmove. unfold move_idea_to_evaluated, bindM, get, path_exists.
  replace (is_file pending_file w5) with true
    by (symmetry; apply bool_decide_eq_true; by rewrite Hfile5).
  rewrite orb_true_r.
  fold pending_file.
  replace (contains "pending" (str_of_path pending_file)) with true
    by (symmetry; apply contains_pending).
  cbn [andb].
  destruct (rename pending_file _ w5) as [[[]|e] w6] eqn:Hrename;
    [|discriminate].
  intros [= <- <-].
  apply (rename_file_ok _ _ c) in Hrename as ->; [|exact Hfile5].
  rewrite Hw5. unfold world_after. cbn [files dirs clock clock_reads net].
  split; [reflexivity|]. split; [exact Hcalls|reflexivity].
Qed.

(** The four artifacts are in place at the end, whatever the files
    before. *)
Lemma artifacts_present (env : gmap string string) (idea_file name : string)
    (suggestion : string) (c ca cm cp ct : content)
    (base : gmap Path content) :
  let self := agent_of_env env in
  let folder := joinpath (output_dir self) name in
  let final :=
    <[joinpath (evaluated_dir self) idea_file := c]>
      (delete (joinpath (pending_dir self) idea_file)
         (<[text_artifact folder suggestion := ct]>
            (<[pdf_artifact folder suggestion := cp]>
               (<[markdown_artifact folder suggestion := cm]>
                  (<[audio_artifact folder suggestion := ca]> base))))) in
  final !! audio_artifact folder suggestion = Some ca /\
  final !! markdown_artifact folder suggestion = Some cm /\
  final !! pdf_artifact folder suggestion = Some cp /\
  final !! text_artifact folder suggestion = Some ct.
Proof.
  intros self folder final.
  pose proof (artifacts_distinct folder suggestion) as Hnd.
  apply NoDup_cons in Hnd as [Ha Hnd]. apply NoDup_cons in Hnd as [Hm Hnd].
  apply NoDup_cons in Hnd as [Hp _].
  rewrite !elem_of_cons, elem_of_nil in Ha.
  rewrite !elem_of_cons, elem_of_nil in Hm.
  rewrite !elem_of_cons, elem_of_nil in Hp.
  unfold final.
  repeat split;
    (rewrite lookup_insert_ne by done; rewrite lookup_delete_ne by done).
  - rewrite !lookup_insert_ne by (intros Heq; apply Ha; rewrite Heq; tauto).
    apply lookup_insert_eq.
  - rewrite !lookup_insert_ne by (intros Heq; apply Hm; rewrite Heq; tauto).
    apply lookup_insert_eq.
  - rewrite !lookup_insert_ne by (intros Heq; apply Hp; rewrite Heq; tauto).
    apply lookup_insert_eq.
  - apply lookup_insert_eq.
Qed.

Lemma is_file_lookup (p : Path) (c : content) (w : World) :
  files w !! p = Some c -> is_file p w = true.
Proof. intros H. apply bool_decide_eq_true. by rewrite H. Qed.

(** C7: when the email key is not set (the variable is absent or empty),
    a successful [process_business_idea] on an idea of the pending queue
    still leaves the four artifacts (audio, markdown, PDF and text) in
    its output folder, reports [email_sent] false, and makes no HTTP
    request: every call it makes goes to the language or speech provider.
    [send_email_with_attachments] itself returns false at once, whatever
    its arguments, and leaves the world as it is. *)
Theorem process_business_idea_without_email_key (svc : Services)
    (env : gmap string string) (business_idea voice_style : string)
    (send_email : bool) (idea_file : string) (c : content)
    (results : Results) (w w' : World) :
  let self := agent_of_env env in
  truthy (resend_api_key self) = false ->
  files w !! joinpath (pending_dir self) idea_file = Some c ->
  process_business_idea svc self business_idea voice_style send_email
    (Some (joinpath (pending_dir self) idea_file)) w = (Ok results, w') ->
  (exists (folder : Path) (suggestion : string),
     parent folder = output_dir self /\
     res_audio_file results = Some (audio_artifact folder suggestion) /\
     res_markdown_file results = Some (markdown_artifact folder suggestion) /\
     res_pdf_file results = Some (pdf_artifact folder suggestion) /\
     res_text_file results = Some (text_artifact folder suggestion) /\
     is_file (audio_artifact folder suggestion) w' = true /\
     is_file (markdown_artifact folder suggestion) w' = true /\
     is_file (pdf_artifact folder suggestion) w' = true /\
     is_file (text_artifact folder suggestion) w' = true) /\
  res_email_sent results = false /\
  (exists calls,
     net w' = calls ++ net w /\
     Forall (fun call => is_http_post call = false) calls) /\
  (forall (analysis_text : string)
          (audio_file_path markdown_file_path pdf_file_path : Path)
          (w0 : World),
     send_email_with_attachments svc self analysis_text audio_file_path
       markdown_file_path pdf_file_path w0 = (Ok false, w0)).
Proof.
  intros self Hkey Hfile H.
  apply (process_pending_idea_ok _ _ _ _ _ _ c) in H
    as (analysis & suggestion & system_prompt & tmp & payload & pdf & sent
        & calls & _ & -> & Hcalls & ->); [|exact Hfile].
  fold self in Hcalls.
  destruct Hcalls as [[-> ->]|(_ & Hkey' & _)]; [|congruence].
  split; [|split; [reflexivity|split]].
  - eexists _, suggestion. split; [apply parent_joinpath|].
    do 4 (split; [reflexivity|]).
    cbn [files world_after].
    match goal with
    | |- context [<[joinpath _ _ := ?c0]> (delete _ (<[_ := ?ct]> (<[_ := ?cp]>
                    (<[_ := ?cm]> (<[_ := ?ca]> ?base)))))] =>
        destruct (artifacts_present env idea_file
                    (folder_name (clock w (1 + clock_reads w)%nat) suggestion)
                    suggestion c0 ca cm cp ct base)
          as (Ha & Hm & Hp & Ht)
    end.
    repeat split; eapply is_file_lookup; eassumption.
  - eexists. split; [reflexivity|]. by repeat constructor.
  - intros. unfold send_email_with_attachments. by rewrite Hkey.
Qed.

Lemma process_business_idea_without_email_key_witness :
  let run :=
    process_business_idea (example_services example_stream)
      (agent_of_env example_env) "idea one" "upbeat" true
      (Some ["agent"; "user-ideas"; "pending"; "a.md"]) example_world in
  exists results : Results,
    fst run = Ok results /\
    res_email_sent results = false /\
    res_text_file results
    = Some ["agent"; "feedback"; "20250101_120000_my-idea";
            "my-idea_analysis.txt"] /\
    is_file ["agent"; "feedback"; "20250101_120000_my-idea";
             "my-idea_analysis.txt"] (snd run) = true /\
    Forall (fun call => is_http_post call = false) (net (snd run)).
Proof.
  intros run.
  assert (Hrun : exists results,
             fst run = Ok results
             /\ res_text_file results
                = Some ["agent"; "feedback"; "20250101_120000_my-idea";
                        "my-idea_analysis.txt"]).
  { eexists. split; vm_compute; reflexivity. }
  destruct Hrun as (results & Hrun & Htext).
  exists results. split; [exact Hrun|].
  assert (Hkey : truthy (resend_api_key (agent_of_env example_env)) = false)
    by (vm_compute; reflexivity).
  assert (Hidea : files example_world
                    !! joinpath (pending_dir (agent_of_env example_env)) "a.md"
                  = Some (Text "idea one"))
    by (vm_compute; reflexivity).
  assert (Hpair : run = (Ok results, snd run))
    by (rewrite <- Hrun; apply surjective_pairing).
  destruct (process_business_idea_without_email_key
              (example_services example_stream) example_env
              "idea one" "upbeat" true "a.md" (Text "idea one")
              results example_world (snd run) Hkey Hidea Hpair)
    as ((folder & suggestion & _ & _ & _ & _ & Htext' & _ & _ & _ & Hfile)
        & Hsent & (calls & Hnet & Hcalls) & _).
  split; [exact Hsent|]. split; [exact Htext|].
  split.
  - rewrite Htext in Htext'. injection Htext' as ->. exact Hfile.
  - rewrite Hnet, app_nil_r. exact Hcalls.
Defined.

(** ** The pending queue *)










